(** * open-h10: the Polar H10 session wrapper of [polar_h10.py]

    A shallow embedding of the class [PolarH10]: its fields, the BLE client
    object it owns, and its methods, written as state-passing functions in a
    small state-and-exception monad.  The BLE library (bleak) is a black box:
    every [await] on it is answered by the next entry of a script that says
    which notifications arrive while the call is pending and whether the call
    raises. *)

From Stdlib Require Import List String Ascii ZArith Bool Lia.
From Stdlib Require Import Strings.Byte.
Import ListNotations.
Local Open Scope string_scope.
Local Open Scope Z_scope.
Local Open Scope list_scope.

(** ** Values *)

(** A [bytes] / [bytearray] value. *)
Definition bytes := list byte.

(** Python exceptions that occur in the module.  All of them are subclasses
    of [Exception], so [except Exception] catches each one.  Exceptions that
    are not ([asyncio.CancelledError], [KeyboardInterrupt]) are not
    represented: the development is about runs that are not cancelled. *)
Inductive exn : Type :=
| ConnectionError (msg : string)   (* raised by start/stop_recording *)
| StructError                      (* struct.error, from struct.pack *)
| AttributeError                   (* attribute access on None *)
| BleakError (msg : string)        (* any failure of the BLE library *)
| SinkError (msg : string).        (* raised by the registered callback *)

Inductive result (A : Type) : Type :=
| Ok (a : A)
| Raise (e : exn).
Arguments Ok {A} a.
Arguments Raise {A} e.

(** [bleak.backends.device.BLEDevice]: the advertised name may be [None]. *)
Record BLEDevice : Type := mkDevice {
  address : string;
  name : option string
}.

(** [bleak.BleakClient], as far as the module looks at it. *)
Record BleakClient : Type := mkClient {
  target : option BLEDevice;
  is_connected : bool;
  notifying : bool
}.

(** An object handed to [set_notification_callback]: its truth value, which
    [if self._notification_callback:] tests, and what calling it on a chunk
    does (return, or raise). *)
Record Callable : Type := mkCallable {
  truthy : bool;
  invoke : bytes -> option exn
}.

(** The instance fields set in [__init__]. *)
Record PolarH10 : Type := mkPolar {
  device : option BLEDevice;
  client : option BleakClient;
  recording : bool;
  _data_buffer : bytes;
  _notification_callback : option Callable   (* [None] is Python's None *)
}.

(** [PolarH10.__init__] *)
Definition init : PolarH10 :=
  mkPolar None None false [] None.

(** ** Class constants *)

Definition PMD_SERVICE : string := "FB005C80-02E7-F387-1CAD-8ACD2D8DF0C8".
Definition PMD_CONTROL : string := "FB005C81-02E7-F387-1CAD-8ACD2D8DF0C8".
Definition PMD_DATA : string := "FB005C82-02E7-F387-1CAD-8ACD2D8DF0C8".

Definition REQUEST_MEASUREMENT_SETTINGS : Z := 0x01.
Definition START_MEASUREMENT : Z := 0x02.
Definition STOP_MEASUREMENT : Z := 0x03.

Definition ECG_MEASUREMENT : Z := 0x00.
Definition PPG_MEASUREMENT : Z := 0x01.
Definition ACC_MEASUREMENT : Z := 0x02.
Definition HR_MEASUREMENT : Z := 0x03.

Definition commands : list Z :=
  [REQUEST_MEASUREMENT_SETTINGS; START_MEASUREMENT; STOP_MEASUREMENT].
Definition measurement_types : list Z :=
  [ECG_MEASUREMENT; PPG_MEASUREMENT; ACC_MEASUREMENT; HR_MEASUREMENT].

(** ** The outside world *)

(** Calls made on the BLE library, in the order they are issued. *)
Inductive call : Type :=
| CallDiscover
| CallConnect (d : option BLEDevice)
| CallStartNotify (uuid : string)
| CallStopNotify (uuid : string)
| CallDisconnect
| CallWrite (uuid : string) (payload : bytes)
| CallSleep (ms : Z).

Inductive level : Type := DEBUG | INFO | WARNING | ERROR.

(** The value interpolated into a log message's f-string. *)
Inductive logarg : Type :=
| NoArg
| ArgExn (e : exn)
| ArgName (n : option string)
| ArgInt (z : Z)
| ArgHex (b : bytes).

Record logrec : Type := mkLog {
  lvl : level;
  text : string;
  arg : logarg
}.

(** What happens while one [await] is pending: the notification chunks the
    transport delivers meanwhile, whether the awaited call raises, and (for a
    scan) the devices found.  [asyncio.sleep] looks at [during] only. *)
Record step : Type := mkStep {
  during : list bytes;
  fails : option exn;
  found : list BLEDevice
}.

(** An await that the script does not cover succeeds quietly. *)
Definition quiet : step := mkStep [] None [].

Record World : Type := mkWorld {
  script : list step;     (* answers to the awaits still to come *)
  calls : list call;      (* library calls issued so far *)
  logged : list logrec;   (* logger calls so far *)
  sunk : list bytes;      (* arguments the callback was invoked with *)
  heard : list bytes      (* chunks the transport has delivered so far *)
}.

Record Sys : Type := mkSys {
  self : PolarH10;
  world : World
}.

(** ** State and exception monad

    A raised exception keeps the mutations done before it, as in Python. *)

Definition M (A : Type) : Type := Sys -> result A * Sys.

Definition ret {A} (a : A) : M A := fun s => (Ok a, s).
Definition raise {A} (e : exn) : M A := fun s => (Raise e, s).
Definition bind {A B} (m : M A) (k : A -> M B) : M B :=
  fun s => match m s with
           | (Ok a, s') => k a s'
           | (Raise e, s') => (Raise e, s')
           end.
(** [try: m  except Exception as e: h e] *)
Definition try_except {A} (m : M A) (h : exn -> M A) : M A :=
  fun s => match m s with
           | (Ok a, s') => (Ok a, s')
           | (Raise e, s') => h e s'
           end.

Notation "x <- m ;; k" := (bind m (fun x => k))
  (at level 61, m at next level, right associativity).
Notation "m ;;; k" := (bind m (fun _ => k))
  (at level 61, right associativity).

Definition get_self : M PolarH10 := fun s => (Ok (self s), s).
Definition put_self (p : PolarH10) : M unit :=
  fun s => (Ok tt, mkSys p (world s)).
Definition modify_world (f : World -> World) : M unit :=
  fun s => (Ok tt, mkSys (self s) (f (world s))).

(** Field assignments. *)
Definition set_device (d : option BLEDevice) (p : PolarH10) : PolarH10 :=
  mkPolar d (client p) (recording p) (_data_buffer p) (_notification_callback p).
Definition set_client (c : option BleakClient) (p : PolarH10) : PolarH10 :=
  mkPolar (device p) c (recording p) (_data_buffer p) (_notification_callback p).
Definition set_recording (b : bool) (p : PolarH10) : PolarH10 :=
  mkPolar (device p) (client p) b (_data_buffer p) (_notification_callback p).
Definition set_buffer (b : bytes) (p : PolarH10) : PolarH10 :=
  mkPolar (device p) (client p) (recording p) b (_notification_callback p).
Definition set_callback (cb : option Callable) (p : PolarH10)
  : PolarH10 :=
  mkPolar (device p) (client p) (recording p) (_data_buffer p) cb.

Definition assign (f : PolarH10 -> PolarH10) : M unit :=
  fun s => (Ok tt, mkSys (f (self s)) (world s)).

Definition log (l : level) (t : string) (a : logarg) : M unit :=
  modify_world (fun w =>
    mkWorld (script w) (calls w) (logged w ++ [mkLog l t a]) (sunk w) (heard w)).
Definition issue (c : call) : M unit :=
  modify_world (fun w =>
    mkWorld (script w) (calls w ++ [c]) (logged w) (sunk w) (heard w)).
Definition sink_called (d : bytes) : M unit :=
  modify_world (fun w =>
    mkWorld (script w) (calls w) (logged w) (sunk w ++ [d]) (heard w)).
Definition transport_delivers (d : bytes) : M unit :=
  modify_world (fun w =>
    mkWorld (script w) (calls w) (logged w) (sunk w) (heard w ++ [d])).

(** The truth value of a field that holds an object or [None]. *)
Definition truth_value (o : option Callable) : bool :=
  match o with
  | Some cb => truthy cb
  | None => false
  end.

(** ** [PolarH10.notification_handler] *)
Definition notification_handler (data : bytes) : M unit :=
  log DEBUG "Received data: " (ArgHex data) ;;;
  assign (fun p => set_buffer (_data_buffer p ++ data) p) ;;;
  p <- get_self ;;
  match _notification_callback p with
  | Some cb =>
      if truthy cb then
        sink_called data ;;;
        match invoke cb data with
        | Some e => raise e
        | None => ret tt
        end
      else ret tt
  | None => ret tt
  end.

(** The transport invokes the handler once per chunk, in arrival order.  An
    exception leaving the handler ends in the library's dispatcher, not in the
    coroutine that is waiting. *)
Fixpoint deliver (chunks : list bytes) (s : Sys) : Sys :=
  match chunks with
  | [] => s
  | c :: rest =>
      deliver rest
        (snd (notification_handler c (snd (transport_delivers c s))))
  end.

(** Takes the next scripted step and lets its notifications arrive. *)
Definition next_step : M step :=
  fun s =>
    let w := world s in
    let st := hd quiet (script w) in
    let s' := mkSys (self s)
                (mkWorld (tl (script w)) (calls w) (logged w) (sunk w) (heard w)) in
    (Ok st, deliver (during st) s').

(** [await <library call>] *)
Definition await (c : call) : M step :=
  issue c ;;;
  st <- next_step ;;
  match fails st with
  | Some e => raise e
  | None => ret st
  end.

(** [await asyncio.sleep(0.1)], the delay in milliseconds. *)
Definition sleep (ms : Z) : M unit :=
  issue (CallSleep ms) ;;;
  _ <- next_step ;;
  ret tt.

(** ** The methods of [bleak.BleakClient] that the module calls

    [self.client.<method>(...)]: an attribute access on [None] raises
    [AttributeError].  A successful call updates what the client object
    reports afterwards; a failed one leaves the object as it was. *)

Definition with_client {A} (k : BleakClient -> M A) : M A :=
  p <- get_self ;;
  match client p with
  | None => raise AttributeError
  | Some c => k c
  end.

Definition client_connect : M unit :=
  with_client (fun c =>
    await (CallConnect (target c)) ;;;
    assign (set_client (Some (mkClient (target c) true (notifying c))))).

Definition client_disconnect : M unit :=
  with_client (fun c =>
    await CallDisconnect ;;;
    assign (set_client (Some (mkClient (target c) false false)))).

Definition start_notify (uuid : string) : M unit :=
  with_client (fun c =>
    await (CallStartNotify uuid) ;;;
    assign (set_client (Some (mkClient (target c) (is_connected c) true)))).

Definition stop_notify (uuid : string) : M unit :=
  with_client (fun c =>
    await (CallStopNotify uuid) ;;;
    assign (set_client (Some (mkClient (target c) (is_connected c) false)))).

Definition write_gatt_char (uuid : string) (data : bytes) : M unit :=
  with_client (fun _ => await (CallWrite uuid data) ;;; ret tt).

(** [self.client and self.client.is_connected] *)
Definition connected (p : PolarH10) : bool :=
  match client p with
  | Some c => is_connected c
  | None => false
  end.

(** ** [PolarH10.scan_for_device] *)

(** [needle in hay] on [str]: [needle] occurs in [hay] as a substring. *)
Fixpoint str_in (needle hay : string) : bool :=
  if prefix needle hay then true
  else match hay with
       | EmptyString => false
       | String _ rest => str_in needle rest
       end.

(** [device.name and "Polar H10" in device.name]: [None] and the empty
    string are falsy. *)
Definition is_polar (d : BLEDevice) : bool :=
  match name d with
  | None => false
  | Some n => negb (String.eqb n "") && str_in "Polar H10" n
  end.

(** The [for] loop with its early [return True], and the code after it. *)
Fixpoint scan_loop (devices : list BLEDevice) : M bool :=
  match devices with
  | [] =>
      log WARNING "No Polar H10 device found" NoArg ;;;
      ret false
  | d :: rest =>
      if is_polar d then
        assign (set_device (Some d)) ;;;
        log INFO "Found Polar H10: " (ArgName (name d)) ;;;
        ret true
      else scan_loop rest
  end.

Definition scan_for_device : M bool :=
  log INFO "Scanning for Polar H10..." NoArg ;;;
  st <- await CallDiscover ;;
  scan_loop (found st).

(** ** [PolarH10.connect] *)
Definition connect : M bool :=
  p <- get_self ;;
  success <- match device p with
             | None => scan_for_device
             | Some _ => ret true
             end ;;
  if negb success then ret false
  else
    try_except
      (p <- get_self ;;
       assign (set_client (Some (mkClient (device p) false false))) ;;;
       client_connect ;;;
       log INFO "Connected to Polar H10" NoArg ;;;
       start_notify PMD_DATA ;;;
       log INFO "Enabled PMD data notifications" NoArg ;;;
       ret true)
      (fun e =>
         log ERROR "Error connecting to device: " (ArgExn e) ;;;
         ret false).

(** ** [PolarH10.disconnect] *)
Definition disconnect : M unit :=
  p <- get_self ;;
  if connected p then
    try_except
      (stop_notify PMD_DATA ;;;
       client_disconnect ;;;
       log INFO "Disconnected from Polar H10" NoArg)
      (fun e => log ERROR "Error during disconnect: " (ArgExn e))
  else ret tt.

(** ** [PolarH10._send_command] *)

(** One ["B"] field of [struct.pack]: an unsigned byte, [struct.error]
    outside 0..255. *)
Definition pack_B (z : Z) : option byte :=
  if (0 <=? z) && (z <=? 255) then Byte.of_N (Z.to_N z) else None.

(** [struct.pack("<BB", a, b)] *)
Definition struct_pack_BB (a b : Z) : M bytes :=
  match pack_B a, pack_B b with
  | Some x, Some y => ret [x; y]
  | _, _ => raise StructError
  end.

Definition _send_command (command measurement_type : Z) : M unit :=
  command_bytes <- struct_pack_BB command measurement_type ;;
  write_gatt_char PMD_CONTROL command_bytes.

(** ** [PolarH10.start_recording] *)
Definition start_recording (measurement_type : Z) : M unit :=
  p <- get_self ;;
  if negb (connected p) then
    raise (ConnectionError "Not connected to Polar H10")
  else
    try_except
      (assign (set_buffer []) ;;;
       _send_command REQUEST_MEASUREMENT_SETTINGS measurement_type ;;;
       sleep 100 ;;;
       _send_command START_MEASUREMENT measurement_type ;;;
       assign (set_recording true) ;;;
       log INFO "Started recording measurement type: " (ArgInt measurement_type))
      (fun e =>
         log ERROR "Error starting recording: " (ArgExn e) ;;;
         raise e).

(** ** [PolarH10.stop_recording] *)
Definition stop_recording (measurement_type : Z) : M unit :=
  p <- get_self ;;
  if negb (connected p) then
    raise (ConnectionError "Not connected to Polar H10")
  else
    try_except
      (_send_command STOP_MEASUREMENT measurement_type ;;;
       assign (set_recording false) ;;;
       log INFO "Stopped recording" NoArg)
      (fun e =>
         log ERROR "Error stopping recording: " (ArgExn e) ;;;
         raise e).

(** ** [PolarH10.get_data] *)
Definition get_data : M bytes :=
  p <- get_self ;;
  let data := _data_buffer p in
  assign (set_buffer []) ;;;
  ret data.

(** ** [PolarH10.set_notification_callback] *)
Definition set_notification_callback (callback : option Callable) : M unit :=
  assign (set_callback callback).

(** ** Running a program *)

Definition run {A} (m : M A) (s : Sys) : result A := fst (m s).
Definition exec {A} (m : M A) (s : Sys) : Sys := snd (m s).

(** The buffer, flag and client of the object inside a system state. *)
Definition buffer (s : Sys) : bytes := _data_buffer (self s).
Definition is_recording (s : Sys) : bool := recording (self s).

(** ** The driver of [example.py]

    [main] owns a [PolarH10] object, prints to the terminal and writes one
    file.  What it prints and writes is kept beside the system state; the
    clock and the disk are given from outside. *)

(** The lines [main] prints, with the values interpolated into them. *)
Inductive line : Type :=
| SayNoConnection   (* "Could not connect to Polar H10" *)
| SayStarting       (* "Starting ECG recording... Press Enter to stop" *)
| SaySaved (n : nat) (filename : string)
                    (* f"Saved {len(data)} bytes of data to {filename}" *)
| SayError (e : exn).
                    (* f"An error occurred: {e}" *)

Record Host : Type := mkHost {
  polar : Sys;                    (* the object [polar] and the BLE world *)
  printed : list line;            (* the lines printed by [main] *)
  files : list (string * bytes)   (* files written: name and content *)
}.

(** What [main] reads from its surroundings: the formatted time of
    [datetime.datetime.now().strftime("%Y%m%d_%H%M%S")], and whether opening
    the output file raises. *)
Record Desk : Type := mkDesk {
  now : string;
  disk : option exn
}.

Definition H (A : Type) : Type := Host -> result A * Host.

Definition hret {A} (a : A) : H A := fun h => (Ok a, h).
Definition hbind {A B} (m : H A) (k : A -> H B) : H B :=
  fun h => match m h with
           | (Ok a, h') => k a h'
           | (Raise e, h') => (Raise e, h')
           end.
(** [try: m  except Exception as e: handler e] *)
Definition htry_except {A} (m : H A) (handler : exn -> H A) : H A :=
  fun h => match m h with
           | (Ok a, h') => (Ok a, h')
           | (Raise e, h') => handler e h'
           end.
(** [try: m  finally: cleanup]: the cleanup runs whichever way [m] ends, and
    an exception of its own replaces the outcome of [m]. *)
Definition hfinally {A} (m : H A) (cleanup : H unit) : H A :=
  fun h => match m h with
           | (r, h') =>
               match cleanup h' with
               | (Ok _, h'') => (r, h'')
               | (Raise e, h'') => (Raise e, h'')
               end
           end.

(** A method call on [polar]. *)
Definition on_polar {A} (m : M A) : H A :=
  fun h => match m (polar h) with
           | (r, s') => (r, mkHost s' (printed h) (files h))
           end.

(** [print(...)] *)
Definition say (l : line) : H unit :=
  fun h => (Ok tt, mkHost (polar h) (printed h ++ [l]) (files h)).

(** [with open(filename, "wb") as f: f.write(data)] *)
Definition write_file (d : Desk) (filename : string) (data : bytes) : H unit :=
  fun h => match disk d with
           | Some e => (Raise e, h)
           | None =>
               (Ok tt,
                mkHost (polar h) (printed h) (files h ++ [(filename, data)]))
           end.

(** [polar = PolarH10()]: a new object in the world as it is. *)
Definition construct : H unit :=
  fun h => (Ok tt,
            mkHost (mkSys init (world (polar h))) (printed h) (files h)).

(** [await asyncio.get_event_loop().run_in_executor(None, input)]: no call
    on the BLE library; notifications keep arriving while the user is
    waited for, and [input] may raise. *)
Definition wait_for_enter : M unit :=
  st <- next_step ;;
  match fails st with
  | Some e => raise e
  | None => ret tt
  end.

(** [data_callback]: a function object, so truthy; it prints one line per
    chunk and returns; the chunks it is called with are the [sunk] record
    of the world. *)
Definition data_callback : Callable := mkCallable true (fun _ => None).

(** The name of the output file. *)
Definition output_name (d : Desk) : string :=
  ("polar_h10_data_" ++ now d ++ ".bin")%string.

(** The body of the [try] statement of [main]; its early [return] ends the
    body. *)
Definition main_body (d : Desk) : H unit :=
  hbind (on_polar connect) (fun connected =>
  if negb connected then say SayNoConnection
  else
    hbind (on_polar (set_notification_callback (Some data_callback))) (fun _ =>
    hbind (say SayStarting) (fun _ =>
    hbind (on_polar (start_recording ECG_MEASUREMENT)) (fun _ =>
    hbind (on_polar wait_for_enter) (fun _ =>
    hbind (on_polar (stop_recording ECG_MEASUREMENT)) (fun _ =>
    hbind (on_polar get_data) (fun data =>
    let filename := output_name d in
    hbind (write_file d filename data) (fun _ =>
    say (SaySaved (List.length data) filename))))))))).

(** [main] of [example.py] *)
Definition main (d : Desk) : H unit :=
  hbind construct (fun _ =>
  hfinally
    (htry_except (main_body d) (fun e => say (SayError e)))
    (on_polar disconnect)).

(** ** Vocabulary of the statements *)

(** The integer a byte stands for. *)
Definition byte_value (b : byte) : Z := Z.of_N (Byte.to_N b).

(** The record [logger.debug] is called with in the handler. *)
Definition debug_record (c : bytes) : logrec :=
  mkLog DEBUG "Received data: " (ArgHex c).

(** The sink is called for each chunk exactly when the registered object
    is truthy. *)
Definition sink_args (p : PolarH10) (chunks : list bytes) : list bytes :=
  if truth_value (_notification_callback p) then chunks else [].

(** The state after the chunks [chunks] went through the handler. *)
Definition arrive (chunks : list bytes) (s : Sys) : Sys :=
  mkSys (set_buffer (_data_buffer (self s) ++ List.concat chunks) (self s))
        (mkWorld (script (world s)) (calls (world s))
                 (logged (world s) ++ map debug_record chunks)
                 (sunk (world s) ++ sink_args (self s) chunks)
                 (heard (world s) ++ chunks)).

(** The step that answers the next await, and whether that await raises. *)
Definition pending (s : Sys) : step := hd quiet (script (world s)).
Definition outcome (s : Sys) : option exn := fails (pending s).

(** The state once the library call [c] has been awaited. *)
Definition after_call (c : call) (s : Sys) : Sys :=
  arrive (during (pending s))
    (mkSys (self s)
       (mkWorld (tl (script (world s))) (calls (world s) ++ [c])
                (logged (world s)) (sunk (world s)) (heard (world s)))).

(** The state after one more logger call. *)
Definition logs (l : level) (t : string) (a : logarg) (s : Sys) : Sys :=
  snd (log l t a s).

Definition on_self (f : PolarH10 -> PolarH10) (s : Sys) : Sys :=
  mkSys (f (self s)) (world s).

(** Named states used as concrete inputs. *)

Definition h10 : BLEDevice :=
  mkDevice "A0:9E:1A:00:00:01" (Some "Polar H10 ABCD123").

Definition live_client : BleakClient := mkClient (Some h10) true true.

Definition empty_world : World := mkWorld [] [] [] [] [].

(** A connected, subscribed session with nothing recorded yet. *)
Definition live : Sys :=
  mkSys (mkPolar (Some h10) (Some live_client) false [] None) empty_world.

(** A session that was never connected but has stale data and a set flag. *)
Definition stale : Sys :=
  mkSys (mkPolar None None true [Byte.xaa; Byte.xbb] None) empty_world.

Definition with_script (sc : list step) (s : Sys) : Sys :=
  mkSys (self s)
        (mkWorld sc (calls (world s)) (logged (world s)) (sunk (world s))
                 (heard (world s))).

Definition failing (msg : string) : step :=
  mkStep [] (Some (BleakError msg)) [].

(** The live session while a recording is in progress. *)
Definition recording_live : Sys := on_self (set_recording true) live.

(** The device is known but no client exists yet. *)
Definition discovered : Sys :=
  mkSys (mkPolar (Some h10) None false [] None) empty_world.

(** A freshly constructed object. *)
Definition fresh : Sys := mkSys init empty_world.

Definition watch : BLEDevice := mkDevice "11:22:33:44:55:66" (Some "Mi Band").
Definition nameless : BLEDevice := mkDevice "77:88:99:AA:BB:CC" None.
Definition lowercase : BLEDevice :=
  mkDevice "DE:AD:BE:EF:00:01" (Some "polar h10 abcd").
Definition second_h10 : BLEDevice :=
  mkDevice "A0:9E:1A:00:00:02" (Some "My Polar H10 EFGH456").

(** A live session that still holds bytes of an earlier recording. *)
Definition stale_live : Sys :=
  on_self (set_buffer [Byte.xaa; Byte.xbb]) live.

(** The advertised name contains ["Polar H10"] as a substring. *)
Definition names_polar (d : BLEDevice) : Prop :=
  exists n before after,
    name d = Some n /\ n = (before ++ "Polar H10" ++ after)%string.

(** The [try]/[except] statement of [connect], on its own. *)
Definition connect_attempt : M bool :=
  try_except
    (p <- get_self ;;
     assign (set_client (Some (mkClient (device p) false false))) ;;;
     client_connect ;;;
     log INFO "Connected to Polar H10" NoArg ;;;
     start_notify PMD_DATA ;;;
     log INFO "Enabled PMD data notifications" NoArg ;;;
     ret true)
    (fun e =>
       log ERROR "Error connecting to device: " (ArgExn e) ;;;
       ret false).

(** The client object in its three stages. *)
Definition new_client (d : option BLEDevice) : BleakClient :=
  mkClient d false false.
Definition linked_client (d : option BLEDevice) : BleakClient :=
  mkClient d true false.
Definition subscribed_client (d : option BLEDevice) : BleakClient :=
  mkClient d true true.

(** The transport connects, then the subscription is refused. *)
Definition subscription_refused : Sys :=
  with_script [quiet; failing "start_notify failed"] discovered.

(** The live session whose unsubscribe request is refused. *)
Definition unsubscribe_refused : Sys :=
  with_script [failing "stop_notify failed"] live.

(** The stages of a run of [main] from the host state [h]. *)
Definition boot (h : Host) : Sys := mkSys init (world (polar h)).
Definition stage_connect (h : Host) : Sys := exec connect (boot h).
Definition stage_ready (h : Host) : Sys :=
  exec (set_notification_callback (Some data_callback)) (stage_connect h).
Definition stage_started (h : Host) : Sys :=
  exec (start_recording ECG_MEASUREMENT) (stage_ready h).
Definition stage_waited (h : Host) : Sys :=
  exec wait_for_enter (stage_started h).
Definition stage_stopped (h : Host) : Sys :=
  exec (stop_recording ECG_MEASUREMENT) (stage_waited h).

(** How a run of [main] ends: the lines it printed, the files it wrote, and
    the state in which [disconnect] is called. *)
Definition ending (h : Host) (lines : list line)
    (saved : list (string * bytes)) (s : Sys) : result unit * Host :=
  (Ok tt, mkHost (exec disconnect s) (printed h ++ lines) (files h ++ saved)).

(** A terminal with nothing printed, a disk with nothing written. *)
Definition bare (s : Sys) : Host := mkHost s [] [].

Definition noon : Desk := mkDesk "20240101_120000" None.

(** Ten awaits that succeed; chunks arrive before, during and after the
    recording. *)
Definition session_script : list step :=
  [ mkStep [] None [watch; h10];                       (* discover *)
    mkStep [] None [];                                 (* connect *)
    mkStep [[Byte.xee]] None [];                       (* start_notify *)
    mkStep [] None [];                                 (* REQUEST_SETTINGS *)
    mkStep [] None [];                                 (* sleep *)
    mkStep [[Byte.x01]] None [];                       (* START *)
    mkStep [[Byte.x02; Byte.x03]; [Byte.x04]] None []; (* input *)
    mkStep [[Byte.x05]] None [];                       (* STOP *)
    mkStep [[Byte.xff]] None [];                       (* stop_notify *)
    mkStep [] None [] ].                               (* disconnect *)


(** The scan [connect] makes when no device is cached, and the position in
    the script of the request that follows it. *)
Definition scanned (s : Sys) : list call :=
  match device (self s) with
  | Some _ => []
  | None => [CallDiscover]
  end.
Definition first_request (s : Sys) : nat := List.length (scanned s).

(** * Properties *)

(** ** Proof steps used more than once *)

Ltac heard_buffer :=
  unfold buffer, logs, after_call, arrive, on_self, pending; cbn;
  eexists; split;
  [ rewrite <- ?app_assoc; reflexivity
  | rewrite ?concat_app, <- ?app_assoc; reflexivity ].

Ltac logged_last :=
  unfold logs, after_call, arrive, on_self; cbn;
  apply in_or_app; right; now left.

(** ** What a delivery and an await do to the system *)

Lemma handler_state (data : bytes) (s : Sys) :
  snd (notification_handler data s) =
  mkSys (set_buffer (_data_buffer (self s) ++ data) (self s))
        (mkWorld (script (world s)) (calls (world s))
                 (logged (world s) ++ [debug_record data])
                 (sunk (world s) ++ sink_args (self s) [data])
                 (heard (world s))).
Proof.
  destruct s as [[dev cl rec buf cb] [scr cls lg snk hrd]].
  unfold notification_handler, sink_args, truth_value, bind, log, assign,
    get_self, sink_called, modify_world, raise, ret; cbn.
  destruct cb as [[[|] f]|]; cbn.
  - destruct (f data); cbn; reflexivity.
  - rewrite app_nil_r. reflexivity.
  - rewrite app_nil_r. reflexivity.
Qed.

Lemma deliver_arrive (chunks : list bytes) :
  forall s, deliver chunks s = arrive chunks s.
Proof.
  induction chunks as [|c rest IH]; intros s.
  - destruct s as [[dev cl rec buf cb] [scr cls lg snk hrd]].
    unfold arrive, sink_args, truth_value; cbn.
    destruct cb as [[[|] f]|]; cbn; now rewrite !app_nil_r.
  - cbn [deliver]. rewrite handler_state, IH.
    destruct s as [[dev cl rec buf cb] [scr cls lg snk hrd]].
    unfold arrive, sink_args, truth_value, transport_delivers, modify_world;
      cbn.
    destruct cb as [[[|] f]|]; cbn; rewrite <- ?app_assoc; cbn;
      try rewrite app_nil_r; reflexivity.
Qed.

Lemma await_run (c : call) (s : Sys) :
  await c s =
  (match outcome s with
   | Some e => Raise e
   | None => Ok (pending s)
   end, after_call c s).
Proof.
  unfold await, bind, issue, modify_world, next_step, raise, ret, outcome,
    after_call, pending; cbn.
  rewrite deliver_arrive.
  destruct (fails (hd quiet (script (world s)))); reflexivity.
Qed.

Lemma sleep_run (ms : Z) (s : Sys) :
  sleep ms s = (Ok tt, after_call (CallSleep ms) s).
Proof.
  unfold sleep, bind, issue, modify_world, next_step, ret, after_call,
    pending; cbn.
  now rewrite deliver_arrive.
Qed.

Lemma pack_B_value (z : Z) (b : byte) :
  pack_B z = Some b -> byte_value b = z.
Proof.
  unfold pack_B, byte_value.
  destruct ((0 <=? z) && (z <=? 255)) eqn:R; [|discriminate].
  apply andb_true_iff in R. destruct R as [R0 R1].
  apply Z.leb_le in R0. intros H.
  apply Byte.to_of_N in H. rewrite H. now apply Z2N.id.
Qed.

Lemma pack_B_range (z : Z) :
  0 <= z <= 255 -> exists b, pack_B z = Some b.
Proof.
  intros [R0 R1]. unfold pack_B.
  replace ((0 <=? z) && (z <=? 255)) with true
    by (symmetry; apply andb_true_iff; split; now apply Z.leb_le).
  destruct (Byte.of_N (Z.to_N z)) as [b|] eqn:E; [now exists b|].
  apply Byte.of_N_None_iff in E. lia.
Qed.

Lemma send_command_run (command mt : Z) (s : Sys) (c : BleakClient) (x y : byte) :
  client (self s) = Some c ->
  pack_B command = Some x -> pack_B mt = Some y ->
  _send_command command mt s =
  (match outcome s with
   | Some e => Raise e
   | None => Ok tt
   end, after_call (CallWrite PMD_CONTROL [x; y]) s).
Proof.
  intros Hc Hx Hy.
  unfold _send_command, struct_pack_BB, write_gatt_char, with_client, bind,
    get_self, ret.
  rewrite Hx, Hy, Hc, await_run.
  destruct (outcome s); reflexivity.
Qed.

Lemma send_command_unpackable (command mt : Z) (s : Sys) :
  pack_B command = None \/ pack_B mt = None ->
  _send_command command mt s = (Raise StructError, s).
Proof.
  intros H. unfold _send_command, struct_pack_BB, bind, raise.
  destruct (pack_B command), (pack_B mt); destruct H; try discriminate;
    reflexivity.
Qed.

(** ** Control-point writes *)

(** C3: for each of the three commands and each of the four measurement
    types, [_send_command] issues exactly one write, to the control-point
    characteristic [PMD_CONTROL], whose payload is the two bytes
    [command; measurement_type], command first. *)
Theorem send_command_writes_two_bytes
  (s : Sys) (c : BleakClient) (command mt : Z) :
  In command commands -> In mt measurement_types ->
  client (self s) = Some c ->
  exists x y : byte,
    byte_value x = command /\ byte_value y = mt /\
    List.length [x; y] = 2%nat /\
    calls (world (exec (_send_command command mt) s)) =
      calls (world s) ++ [CallWrite PMD_CONTROL [x; y]].
Proof.
  intros Hcmd Hmt Hc.
  assert (Rc : 0 <= command <= 255)
    by (cbn in Hcmd; unfold REQUEST_MEASUREMENT_SETTINGS, START_MEASUREMENT,
          STOP_MEASUREMENT in Hcmd; lia).
  assert (Rm : 0 <= mt <= 255)
    by (cbn in Hmt; unfold ECG_MEASUREMENT, PPG_MEASUREMENT, ACC_MEASUREMENT,
          HR_MEASUREMENT in Hmt; lia).
  destruct (pack_B_range _ Rc) as [x Hx], (pack_B_range _ Rm) as [y Hy].
  exists x, y. repeat split; try now apply pack_B_value.
  unfold exec. now rewrite (send_command_run _ _ _ _ _ _ Hc Hx Hy).
Qed.

Lemma send_command_writes_two_bytes_witness :
  exists x y : byte,
    byte_value x = START_MEASUREMENT /\ byte_value y = ACC_MEASUREMENT /\
    List.length [x; y] = 2%nat /\
    calls (world (exec (_send_command START_MEASUREMENT ACC_MEASUREMENT) live)) =
      calls (world live) ++ [CallWrite PMD_CONTROL [x; y]].
Proof.
  apply (send_command_writes_two_bytes live live_client);
    [cbn; tauto | cbn; tauto | reflexivity].
Defined.

(** The twelve payloads, byte for byte. *)
Example send_command_all_payloads :
  map (fun cm =>
         calls (world (exec (_send_command (fst cm) (snd cm)) live)))
      (list_prod commands measurement_types) =
  map (fun xy => [CallWrite PMD_CONTROL [fst xy; snd xy]])
      (list_prod [Byte.x01; Byte.x02; Byte.x03]
                 [Byte.x00; Byte.x01; Byte.x02; Byte.x03]).
Proof. vm_compute. reflexivity. Qed.

(** ** Recording *)

(** C9: called while not connected (no client, or a client that is not
    connected), [start_recording] raises [ConnectionError] and changes
    nothing: buffer, recording flag and every other field keep their values,
    and no library call is issued. *)
Theorem start_recording_not_connected (s : Sys) (mt : Z) :
  connected (self s) = false ->
  start_recording mt s =
    (Raise (ConnectionError "Not connected to Polar H10"), s).
Proof.
  intros H. unfold start_recording, bind, get_self, raise.
  rewrite H. reflexivity.
Qed.

Lemma start_recording_not_connected_witness :
  start_recording ECG_MEASUREMENT stale =
    (Raise (ConnectionError "Not connected to Polar H10"), stale).
Proof.
  apply (start_recording_not_connected stale ECG_MEASUREMENT). reflexivity.
Defined.

Lemma connected_client (p : PolarH10) :
  connected p = true ->
  exists c, client p = Some c /\ is_connected c = true.
Proof.
  unfold connected. destruct (client p) as [c|]; [|discriminate].
  intros H. now exists c.
Qed.

Lemma pack_request : pack_B REQUEST_MEASUREMENT_SETTINGS = Some Byte.x01.
Proof. reflexivity. Qed.
Lemma pack_start : pack_B START_MEASUREMENT = Some Byte.x02.
Proof. reflexivity. Qed.
Lemma pack_stop : pack_B STOP_MEASUREMENT = Some Byte.x03.
Proof. reflexivity. Qed.

Lemma start_recording_run (mt : Z) (s : Sys) (y : byte) :
  connected (self s) = true -> pack_B mt = Some y ->
  let s0 := on_self (set_buffer []) s in
  let s1 := after_call (CallWrite PMD_CONTROL [Byte.x01; y]) s0 in
  let s2 := after_call (CallSleep 100) s1 in
  let s3 := after_call (CallWrite PMD_CONTROL [Byte.x02; y]) s2 in
  start_recording mt s =
  match outcome s0 with
  | Some e => (Raise e, logs ERROR "Error starting recording: " (ArgExn e) s1)
  | None =>
      match outcome s2 with
      | Some e =>
          (Raise e, logs ERROR "Error starting recording: " (ArgExn e) s3)
      | None =>
          (Ok tt,
           logs INFO "Started recording measurement type: " (ArgInt mt)
             (on_self (set_recording true) s3))
      end
  end.
Proof.
  intros Hconn Hy s0 s1 s2 s3.
  destruct (connected_client _ Hconn) as [c [Hc _]].
  unfold start_recording, bind, try_except, get_self, assign.
  rewrite Hconn. cbn [negb].
  fold (on_self (set_buffer []) s). fold s0.
  rewrite (send_command_run _ _ s0 c _ _ Hc pack_request Hy). fold s1.
  destruct (outcome s0) as [e|].
  - reflexivity.
  - rewrite sleep_run. fold s2.
    rewrite (send_command_run _ _ s2 c _ _ Hc pack_start Hy). fold s3.
    destruct (outcome s2) as [e|]; reflexivity.
Qed.

Lemma start_recording_unpackable (mt : Z) (s : Sys) :
  connected (self s) = true -> pack_B mt = None ->
  start_recording mt s =
  (Raise StructError,
   logs ERROR "Error starting recording: " (ArgExn StructError)
     (on_self (set_buffer []) s)).
Proof.
  intros Hconn Hy.
  unfold start_recording, bind, try_except, get_self, assign.
  rewrite Hconn. cbn [negb].
  rewrite send_command_unpackable by now right.
  reflexivity.
Qed.

Lemma hd_tl_tl {A} (d : A) (l : list A) : hd d (tl (tl l)) = nth 2 l d.
Proof. destruct l as [|a [|b [|c l]]]; reflexivity. Qed.



Lemma stop_recording_run (mt : Z) (s : Sys) (y : byte) :
  connected (self s) = true -> pack_B mt = Some y ->
  let s1 := after_call (CallWrite PMD_CONTROL [Byte.x03; y]) s in
  stop_recording mt s =
  match outcome s with
  | Some e => (Raise e, logs ERROR "Error stopping recording: " (ArgExn e) s1)
  | None =>
      (Ok tt,
       logs INFO "Stopped recording" NoArg (on_self (set_recording false) s1))
  end.
Proof.
  intros Hconn Hy s1.
  destruct (connected_client _ Hconn) as [c [Hc _]].
  unfold stop_recording, bind, try_except, get_self, assign.
  rewrite Hconn. cbn [negb].
  rewrite (send_command_run _ _ s c _ _ Hc pack_stop Hy). fold s1.
  destruct (outcome s); reflexivity.
Qed.

Lemma stop_recording_unpackable (mt : Z) (s : Sys) :
  connected (self s) = true -> pack_B mt = None ->
  stop_recording mt s =
  (Raise StructError,
   logs ERROR "Error stopping recording: " (ArgExn StructError) s).
Proof.
  intros Hconn Hy.
  unfold stop_recording, bind, try_except, get_self, assign.
  rewrite Hconn. cbn [negb].
  rewrite send_command_unpackable by now right.
  reflexivity.
Qed.

Lemma stop_recording_not_connected (mt : Z) (s : Sys) :
  connected (self s) = false ->
  stop_recording mt s =
    (Raise (ConnectionError "Not connected to Polar H10"), s).
Proof.
  intros H. unfold stop_recording, bind, get_self, raise.
  rewrite H. reflexivity.
Qed.




(** ** The notification buffer *)

Lemma get_data_run (s : Sys) :
  get_data s = (Ok (buffer s), on_self (set_buffer []) s).
Proof. reflexivity. Qed.

(** Whatever its outcome, a started recording leaves in the buffer exactly
    the chunks that arrived while [start_recording] was running. *)
Lemma start_recording_fresh (s : Sys) (mt : Z) :
  connected (self s) = true ->
  exists cs,
    heard (world (exec (start_recording mt) s)) = heard (world s) ++ cs /\
    buffer (exec (start_recording mt) s) = List.concat cs.
Proof.
  intros Hconn. unfold exec.
  destruct (pack_B mt) as [y|] eqn:Hy.
  - rewrite (start_recording_run mt s y Hconn Hy). cbv zeta.
    destruct (outcome _) as [e1|]; [|destruct (outcome _) as [e3|]];
      cbn [snd]; heard_buffer.
  - rewrite (start_recording_unpackable mt s Hconn Hy). cbn [snd].
    exists []. unfold buffer, logs, on_self; cbn. now rewrite app_nil_r.
Qed.

(** [stop_recording] never touches the buffer itself: it only grows by what
    arrives while the STOP write is pending. *)
Lemma stop_recording_accumulates (s : Sys) (mt : Z) :
  exists cs,
    heard (world (exec (stop_recording mt) s)) = heard (world s) ++ cs /\
    buffer (exec (stop_recording mt) s) = buffer s ++ List.concat cs.
Proof.
  unfold exec.
  destruct (connected (self s)) eqn:Hconn.
  - destruct (pack_B mt) as [y|] eqn:Hy.
    + rewrite (stop_recording_run mt s y Hconn Hy). cbv zeta.
      destruct (outcome s); cbn [snd];
        exists (during (pending s)); split; reflexivity.
    + rewrite (stop_recording_unpackable mt s Hconn Hy). cbn [snd].
      exists []. unfold buffer, logs; cbn. now rewrite !app_nil_r.
  - rewrite (stop_recording_not_connected mt s Hconn). cbn [snd].
    exists []. cbn. now rewrite !app_nil_r.
Qed.

Lemma deliver_accumulates (chunks : list bytes) (s : Sys) :
  heard (world (deliver chunks s)) = heard (world s) ++ chunks /\
  buffer (deliver chunks s) = buffer s ++ List.concat chunks.
Proof. rewrite deliver_arrive. split; reflexivity. Qed.

(** C1: start a recording on a connected session, let any chunks arrive,
    stop, and call [get_data]: the result is the concatenation, in arrival
    order, of every chunk the transport delivered since [start_recording]
    was called (the chunks [chunks] delivered between the two calls among
    them); [get_data] empties the buffer, so a second call returns the
    empty byte string. *)
Theorem get_data_returns_session_stream
  (s : Sys) (mt mt' : Z) (chunks cs : list bytes) :
  connected (self s) = true ->
  let s1 := exec (start_recording mt) s in
  let s2 := deliver chunks s1 in
  let s3 := exec (stop_recording mt') s2 in
  heard (world s3) = heard (world s) ++ cs ->
  run get_data s3 = Ok (List.concat cs) /\
  (exists before after, cs = before ++ chunks ++ after) /\
  buffer (exec get_data s3) = [] /\
  run get_data (exec get_data s3) = Ok [].
Proof.
  intros Hconn s1 s2 s3 Hheard.
  destruct (start_recording_fresh s mt Hconn) as [c1 [H1 B1]].
  destruct (deliver_accumulates chunks s1) as [H2 B2].
  destruct (stop_recording_accumulates s2 mt') as [c3 [H3 B3]].
  fold s1 in H1, B1. fold s2 in H2, B2, H3, B3. fold s3 in H3, B3.
  assert (E : cs = c1 ++ chunks ++ c3).
  { apply (app_inv_head (heard (world s))).
    rewrite <- Hheard, H3, H2, H1. now rewrite <- !app_assoc. }
  unfold run, exec. rewrite !get_data_run. cbn [fst snd].
  repeat split.
  - rewrite B3, B2, B1, E. now rewrite !concat_app, <- !app_assoc.
  - now exists c1, c3.
Qed.

Lemma get_data_returns_session_stream_witness :
  run get_data
    (exec (stop_recording ECG_MEASUREMENT)
       (deliver [[Byte.x01; Byte.x02]; [Byte.x03]]
          (exec (start_recording ECG_MEASUREMENT) stale_live))) =
    Ok [Byte.x01; Byte.x02; Byte.x03].
Proof.
  apply (get_data_returns_session_stream stale_live ECG_MEASUREMENT
           ECG_MEASUREMENT [[Byte.x01; Byte.x02]; [Byte.x03]]
           [[Byte.x01; Byte.x02]; [Byte.x03]]); reflexivity.
Defined.

(** C10: the handler appends the chunk to the buffer and calls the
    registered sink whatever the recording flag says; so chunks that arrive
    after [stop_recording], or before any [start_recording], are returned
    by the next [get_data]. *)
Theorem notification_handler_ignores_recording_flag
  (s : Sys) (data : bytes) (flag : bool) :
  let s0 := on_self (set_recording flag) s in
  let s' := exec (notification_handler data) s0 in
  buffer s' = buffer s ++ data /\
  is_recording s' = flag /\
  sunk (world s') = sunk (world s) ++ sink_args (self s) [data] /\
  (forall mt late,
     let t := exec (stop_recording mt) s in
     run get_data (deliver late t) = Ok (buffer t ++ List.concat late)) /\
  (forall early w,
     run get_data (deliver early (mkSys init w)) = Ok (List.concat early)).
Proof.
  intros s0 s'. subst s' s0. unfold exec.
  rewrite handler_state.
  split; [reflexivity|]. split; [reflexivity|]. split; [reflexivity|]. split.
  - intros mt late. unfold run. rewrite get_data_run. cbn [fst].
    apply f_equal. apply deliver_accumulates.
  - intros early w. unfold run. rewrite get_data_run. cbn [fst].
    apply f_equal. now rewrite deliver_arrive.
Qed.

(** ** Discovery *)

Lemma prefix_app (a b : string) :
  prefix a b = true <-> exists post, b = (a ++ post)%string.
Proof.
  revert b. induction a as [|c a IH]; intros b; destruct b as [|c' b]; cbn.
  - split; [intros _; now exists EmptyString | reflexivity].
  - split; [intros _; now exists (String c' b) | reflexivity].
  - split; [discriminate | intros [post H]; discriminate].
  - destruct (ascii_dec c c') as [->|Hne].
    + rewrite IH. split; intros [post H]; exists post.
      * now rewrite H.
      * now injection H.
    + split; [discriminate|].
      intros [post H]. injection H as Hc _. now symmetry in Hc.
Qed.

Lemma str_in_unfold (a b : string) :
  str_in a b =
  if prefix a b then true
  else match b with
       | EmptyString => false
       | String _ rest => str_in a rest
       end.
Proof. destruct b; reflexivity. Qed.

Lemma str_in_spec (a b : string) :
  str_in a b = true <->
  exists pre post, b = (pre ++ a ++ post)%string.
Proof.
  split.
  - induction b as [|c b IH]; rewrite str_in_unfold;
      destruct (prefix a _) eqn:P.
    + apply prefix_app in P. destruct P as [post H].
      intros _. now exists EmptyString, post.
    + discriminate.
    + apply prefix_app in P. destruct P as [post H].
      intros _. now exists EmptyString, post.
    + intros H. destruct (IH H) as [pre [post E]].
      exists (String c pre), post. cbn. now rewrite E.
  - intros [pre [post E]]. subst b.
    induction pre as [|c pre IH]; rewrite str_in_unfold.
    + replace (prefix a _) with true; [reflexivity|].
      symmetry. apply prefix_app. now exists post.
    + cbn [append]. destruct (prefix a _); [reflexivity | exact IH].
Qed.

(** The test of the source is the substring relation of the spec. *)
Lemma is_polar_spec (d : BLEDevice) :
  is_polar d = true <-> names_polar d.
Proof.
  unfold is_polar, names_polar. destruct (name d) as [n|].
  - split.
    + intros H. apply andb_true_iff in H. destruct H as [_ H].
      apply str_in_spec in H. destruct H as [pre [post E]].
      now exists n, pre, post.
    + intros [n' [pre [post [E1 E2]]]]. injection E1 as <-.
      assert (S : str_in "Polar H10" n = true)
        by (apply str_in_spec; now exists pre, post).
      rewrite S, andb_true_r.
      destruct n; [discriminate S | reflexivity].
  - split; [discriminate|]. intros [n [pre [post [E _]]]]. discriminate.
Qed.

Lemma scan_loop_run (ds : list BLEDevice) (s : Sys) :
  scan_loop ds s =
  match find is_polar ds with
  | Some d =>
      (Ok true,
       logs INFO "Found Polar H10: " (ArgName (name d))
         (on_self (set_device (Some d)) s))
  | None => (Ok false, logs WARNING "No Polar H10 device found" NoArg s)
  end.
Proof.
  induction ds as [|d ds IH]; cbn [scan_loop find].
  - reflexivity.
  - destruct (is_polar d); [reflexivity | exact IH].
Qed.

Lemma scan_for_device_run (s : Sys) :
  let s1 := after_call CallDiscover
              (logs INFO "Scanning for Polar H10..." NoArg s) in
  scan_for_device s =
  match fails (pending s) with
  | Some e => (Raise e, s1)
  | None => scan_loop (found (pending s)) s1
  end.
Proof.
  intros s1. unfold scan_for_device, bind.
  change (log INFO "Scanning for Polar H10..." NoArg s)
    with (Ok tt, logs INFO "Scanning for Polar H10..." NoArg s).
  cbv iota beta. rewrite await_run. fold s1.
  change (outcome (logs INFO "Scanning for Polar H10..." NoArg s))
    with (fails (pending s)).
  destruct (fails (pending s)); reflexivity.
Qed.

Lemma find_first {A} (f : A -> bool) (pre : list A) (d : A) (post : list A) :
  (forall x, In x pre -> f x = false) -> f d = true ->
  find f (pre ++ d :: post) = Some d.
Proof.
  induction pre as [|x pre IH]; intros Hpre Hd; cbn.
  - now rewrite Hd.
  - rewrite (Hpre x) by now left.
    apply IH; [|exact Hd]. intros y Hy. apply Hpre. now right.
Qed.

Lemma find_nowhere {A} (f : A -> bool) (l : list A) :
  (forall x, In x l -> f x = false) -> find f l = None.
Proof.
  induction l as [|x l IH]; intros H; cbn; [reflexivity|].
  rewrite (H x) by now left. apply IH. intros y Hy. apply H. now right.
Qed.

Lemma not_polar (d : BLEDevice) : ~ names_polar d -> is_polar d = false.
Proof.
  intros H. destruct (is_polar d) eqn:E; [|reflexivity].
  now apply is_polar_spec in E.
Qed.

(** C8: when the scan concludes with the device list [found], in scan
    order, [scan_for_device] returns [True] and stores the first device
    whose name contains the substring "Polar H10" (compared character by
    character, so case matters); when no device of the list has such a name
    it returns [False] and stores nothing. *)
Theorem scan_for_device_first_match (s : Sys) :
  fails (pending s) = None ->
  let ds := found (pending s) in
  let s' := exec scan_for_device s in
  (forall pre d post,
     ds = pre ++ d :: post ->
     (forall x, In x pre -> ~ names_polar x) ->
     names_polar d ->
     run scan_for_device s = Ok true /\ device (self s') = Some d) /\
  ((forall x, In x ds -> ~ names_polar x) ->
   run scan_for_device s = Ok false /\ device (self s') = device (self s)).
Proof.
  intros Hok ds s'. subst s'. unfold run, exec.
  rewrite scan_for_device_run. cbv zeta. rewrite Hok, scan_loop_run.
  fold ds. split.
  - intros pre d post E Hpre Hd. rewrite E.
    rewrite find_first.
    + split; reflexivity.
    + intros x Hx. apply not_polar. now apply Hpre.
    + now apply is_polar_spec.
  - intros Hnone. rewrite find_nowhere.
    + split; reflexivity.
    + intros x Hx. apply not_polar. now apply Hnone.
Qed.

Lemma scan_for_device_first_match_witness :
  run scan_for_device
    (with_script [mkStep [] None [watch; nameless; lowercase; h10; second_h10]]
       fresh) = Ok true /\
  device (self (exec scan_for_device
    (with_script [mkStep [] None [watch; nameless; lowercase; h10; second_h10]]
       fresh))) = Some h10.
Proof.
  pose proof (scan_for_device_first_match
                (with_script
                   [mkStep [] None
                      [watch; nameless; lowercase; h10; second_h10]]
                   fresh) eq_refl) as H.
  cbv zeta in H. destruct H as [H _].
  apply (H [watch; nameless; lowercase] h10 [second_h10]).
  - reflexivity.
  - intros x Hx Hp. apply is_polar_spec in Hp.
    destruct Hx as [<-|[<-|[<-|[]]]]; discriminate Hp.
  - apply is_polar_spec. reflexivity.
Defined.

(** The scenario of the spec: one device named "Polar H10 ABCD123" is found;
    a list without such a name gives [False]. *)
Example scan_scenarios :
  scan_for_device (with_script [mkStep [] None [h10]] fresh) =
    (Ok true,
     logs INFO "Found Polar H10: " (ArgName (name h10))
       (on_self (set_device (Some h10))
          (after_call CallDiscover
             (logs INFO "Scanning for Polar H10..." NoArg
                (with_script [mkStep [] None [h10]] fresh))))) /\
  run scan_for_device
    (with_script [mkStep [] None [watch; nameless; lowercase]] fresh) =
    Ok false.
Proof. split; reflexivity. Qed.

(** ** Reading a field of a state after a step *)

Lemma calls_after_call (c : call) (s : Sys) :
  calls (world (after_call c s)) = calls (world s) ++ [c].
Proof. reflexivity. Qed.
Lemma calls_logs l t a (s : Sys) :
  calls (world (logs l t a s)) = calls (world s).
Proof. reflexivity. Qed.
Lemma calls_on_self f (s : Sys) :
  calls (world (on_self f s)) = calls (world s).
Proof. reflexivity. Qed.

Lemma heard_after_call (c : call) (s : Sys) :
  heard (world (after_call c s)) = heard (world s) ++ during (pending s).
Proof. reflexivity. Qed.
Lemma heard_logs l t a (s : Sys) :
  heard (world (logs l t a s)) = heard (world s).
Proof. reflexivity. Qed.
Lemma heard_on_self f (s : Sys) :
  heard (world (on_self f s)) = heard (world s).
Proof. reflexivity. Qed.

Lemma script_after_call (c : call) (s : Sys) :
  script (world (after_call c s)) = tl (script (world s)).
Proof. reflexivity. Qed.
Lemma script_logs l t a (s : Sys) :
  script (world (logs l t a s)) = script (world s).
Proof. reflexivity. Qed.
Lemma script_on_self f (s : Sys) :
  script (world (on_self f s)) = script (world s).
Proof. reflexivity. Qed.

Lemma buffer_after_call (c : call) (s : Sys) :
  buffer (after_call c s) = buffer s ++ List.concat (during (pending s)).
Proof. reflexivity. Qed.
Lemma buffer_logs l t a (s : Sys) : buffer (logs l t a s) = buffer s.
Proof. reflexivity. Qed.
Lemma buffer_set_client c (s : Sys) :
  buffer (on_self (set_client c) s) = buffer s.
Proof. reflexivity. Qed.
Lemma buffer_set_recording b (s : Sys) :
  buffer (on_self (set_recording b) s) = buffer s.
Proof. reflexivity. Qed.
Lemma buffer_set_device d (s : Sys) :
  buffer (on_self (set_device d) s) = buffer s.
Proof. reflexivity. Qed.
Lemma buffer_set_buffer b (s : Sys) :
  buffer (on_self (set_buffer b) s) = b.
Proof. reflexivity. Qed.

Lemma client_after_call (c : call) (s : Sys) :
  client (self (after_call c s)) = client (self s).
Proof. reflexivity. Qed.
Lemma client_logs l t a (s : Sys) :
  client (self (logs l t a s)) = client (self s).
Proof. reflexivity. Qed.
Lemma client_set_client c (s : Sys) :
  client (self (on_self (set_client c) s)) = c.
Proof. reflexivity. Qed.
Lemma client_set_device d (s : Sys) :
  client (self (on_self (set_device d) s)) = client (self s).
Proof. reflexivity. Qed.

Lemma device_after_call (c : call) (s : Sys) :
  device (self (after_call c s)) = device (self s).
Proof. reflexivity. Qed.
Lemma device_logs l t a (s : Sys) :
  device (self (logs l t a s)) = device (self s).
Proof. reflexivity. Qed.
Lemma device_set_client c (s : Sys) :
  device (self (on_self (set_client c) s)) = device (self s).
Proof. reflexivity. Qed.
Lemma device_set_device d (s : Sys) :
  device (self (on_self (set_device d) s)) = d.
Proof. reflexivity. Qed.

Lemma recording_after_call (c : call) (s : Sys) :
  is_recording (after_call c s) = is_recording s.
Proof. reflexivity. Qed.
Lemma recording_logs l t a (s : Sys) :
  is_recording (logs l t a s) = is_recording s.
Proof. reflexivity. Qed.
Lemma recording_set_client c (s : Sys) :
  is_recording (on_self (set_client c) s) = is_recording s.
Proof. reflexivity. Qed.

Lemma logged_logs l t a (s : Sys) :
  logged (world (logs l t a s)) = logged (world s) ++ [mkLog l t a].
Proof. reflexivity. Qed.

Lemma pending_logs l t a (s : Sys) : pending (logs l t a s) = pending s.
Proof. reflexivity. Qed.
Lemma pending_on_self f (s : Sys) : pending (on_self f s) = pending s.
Proof. reflexivity. Qed.
Lemma pending_after_call (c : call) (s : Sys) :
  pending (after_call c s) = hd quiet (tl (script (world s))).
Proof. reflexivity. Qed.

(** Pushes field projections through the steps of a run. *)
Ltac fields :=
  repeat progress (rewrite
    ?calls_after_call, ?calls_logs, ?calls_on_self,
    ?heard_after_call, ?heard_logs, ?heard_on_self,
    ?script_after_call, ?script_logs, ?script_on_self,
    ?buffer_after_call, ?buffer_logs, ?buffer_set_client,
    ?buffer_set_recording, ?buffer_set_device, ?buffer_set_buffer,
    ?client_after_call, ?client_logs, ?client_set_client, ?client_set_device,
    ?device_after_call, ?device_logs, ?device_set_client, ?device_set_device,
    ?recording_after_call, ?recording_logs, ?recording_set_client,
    ?pending_logs, ?pending_on_self, ?pending_after_call).

Lemma outcome_nth0 (s : Sys) :
  outcome s = fails (nth 0 (script (world s)) quiet).
Proof. unfold outcome, pending. now destruct (script (world s)). Qed.

Lemma outcome_logs l t a (s : Sys) : outcome (logs l t a s) = outcome s.
Proof. reflexivity. Qed.
Lemma outcome_on_self f (s : Sys) : outcome (on_self f s) = outcome s.
Proof. reflexivity. Qed.
Lemma outcome_after_call c (s : Sys) :
  outcome (after_call c s) = fails (hd quiet (tl (script (world s)))).
Proof. reflexivity. Qed.

Lemma hd_tl {A} (d : A) (l : list A) : hd d (tl l) = nth 1 l d.
Proof. destruct l as [|a [|b l]]; reflexivity. Qed.

(** Reduces the outcome of a later await to a position of the script. *)
Ltac outcomes :=
  repeat progress (rewrite ?outcome_logs, ?outcome_on_self,
                     ?outcome_after_call);
  fields; rewrite ?hd_tl_tl, ?hd_tl, ?outcome_nth0.

(** ** Connecting and disconnecting *)

Lemma client_connect_run (s : Sys) (c : BleakClient) :
  client (self s) = Some c ->
  let s1 := after_call (CallConnect (target c)) s in
  client_connect s =
  match outcome s with
  | Some e => (Raise e, s1)
  | None =>
      (Ok tt,
       on_self (set_client (Some (mkClient (target c) true (notifying c)))) s1)
  end.
Proof.
  intros Hc s1. unfold client_connect, with_client, bind, get_self, assign.
  rewrite Hc, await_run. fold s1. destruct (outcome s); reflexivity.
Qed.

Lemma client_disconnect_run (s : Sys) (c : BleakClient) :
  client (self s) = Some c ->
  let s1 := after_call CallDisconnect s in
  client_disconnect s =
  match outcome s with
  | Some e => (Raise e, s1)
  | None =>
      (Ok tt, on_self (set_client (Some (mkClient (target c) false false))) s1)
  end.
Proof.
  intros Hc s1. unfold client_disconnect, with_client, bind, get_self, assign.
  rewrite Hc, await_run. fold s1. destruct (outcome s); reflexivity.
Qed.

Lemma start_notify_run (uuid : string) (s : Sys) (c : BleakClient) :
  client (self s) = Some c ->
  let s1 := after_call (CallStartNotify uuid) s in
  start_notify uuid s =
  match outcome s with
  | Some e => (Raise e, s1)
  | None =>
      (Ok tt,
       on_self
         (set_client (Some (mkClient (target c) (is_connected c) true))) s1)
  end.
Proof.
  intros Hc s1. unfold start_notify, with_client, bind, get_self, assign.
  rewrite Hc, await_run. fold s1. destruct (outcome s); reflexivity.
Qed.

Lemma stop_notify_run (uuid : string) (s : Sys) (c : BleakClient) :
  client (self s) = Some c ->
  let s1 := after_call (CallStopNotify uuid) s in
  stop_notify uuid s =
  match outcome s with
  | Some e => (Raise e, s1)
  | None =>
      (Ok tt,
       on_self
         (set_client (Some (mkClient (target c) (is_connected c) false))) s1)
  end.
Proof.
  intros Hc s1. unfold stop_notify, with_client, bind, get_self, assign.
  rewrite Hc, await_run. fold s1. destruct (outcome s); reflexivity.
Qed.

Lemma disconnect_idle (s : Sys) :
  connected (self s) = false -> disconnect s = (Ok tt, s).
Proof.
  intros H. unfold disconnect, bind, get_self. now rewrite H.
Qed.

Lemma disconnect_run (s : Sys) (c : BleakClient) :
  client (self s) = Some c -> is_connected c = true ->
  let s1 := after_call (CallStopNotify PMD_DATA) s in
  let s2 := on_self (set_client (Some (linked_client (target c)))) s1 in
  let s3 := after_call CallDisconnect s2 in
  disconnect s =
  match outcome s with
  | Some e => (Ok tt, logs ERROR "Error during disconnect: " (ArgExn e) s1)
  | None =>
      match outcome s2 with
      | Some e => (Ok tt, logs ERROR "Error during disconnect: " (ArgExn e) s3)
      | None =>
          (Ok tt,
           logs INFO "Disconnected from Polar H10" NoArg
             (on_self (set_client (Some (new_client (target c)))) s3))
      end
  end.
Proof.
  intros Hc Hlink s1 s2 s3.
  unfold disconnect, bind, try_except, get_self.
  unfold connected. rewrite Hc, Hlink.
  rewrite (stop_notify_run PMD_DATA s c Hc). cbv zeta. fold s1.
  destruct (outcome s) as [e|]; [reflexivity|].
  rewrite Hlink. fold (linked_client (target c)). fold s2.
  rewrite (client_disconnect_run s2 (linked_client (target c)) eq_refl).
  cbv zeta. fold s3.
  destruct (outcome s2) as [e|]; reflexivity.
Qed.

(** C5: [disconnect] never raises: with no client or a client that is not
    connected it does nothing at all, so it can be called before any
    connection and any number of times in a row; a failure of the
    unsubscribe or close request ends up in the log as an ERROR record and
    nowhere else.  After a [disconnect] that went through, the next one is
    a no-op. *)
Theorem disconnect_never_raises (s : Sys) :
  let s' := exec disconnect s in
  let first := nth 0 (script (world s)) quiet in
  let second := nth 1 (script (world s)) quiet in
  run disconnect s = Ok tt /\
  run disconnect s' = Ok tt /\
  (connected (self s) = false -> disconnect s = (Ok tt, s)) /\
  (forall e,
     connected (self s) = true ->
     fails first = Some e \/ (fails first = None /\ fails second = Some e) ->
     In (mkLog ERROR "Error during disconnect: " (ArgExn e))
        (logged (world s'))) /\
  (connected (self s) = true ->
   fails first = None -> fails second = None ->
   connected (self s') = false /\ disconnect s' = (Ok tt, s')).
Proof.
  intros s' first second.
  assert (Never : forall t, run disconnect t = Ok tt).
  { intros t. unfold run. destruct (connected (self t)) eqn:Hconn.
    - destruct (connected_client _ Hconn) as [c [Hc Hl]].
      rewrite (disconnect_run t c Hc Hl). cbv zeta.
      destruct (outcome t); [reflexivity|].
      destruct (outcome _); reflexivity.
    - now rewrite disconnect_idle. }
  split; [apply Never|]. split; [apply Never|].
  split; [apply disconnect_idle|].
  assert (O1 : outcome s = fails first).
  { unfold outcome, pending, first. now destruct (script (world s)). }
  subst s'. unfold exec. split.
  - intros e Hconn Hfail.
    destruct (connected_client _ Hconn) as [c [Hc Hl]].
    rewrite (disconnect_run s c Hc Hl). cbv zeta. rewrite O1.
    match goal with
    | |- context [outcome ?t] =>
        assert (O2 : outcome t = fails second)
          by (unfold outcome, pending, second; cbn;
              now destruct (script (world s)) as [|a [|b l]])
    end.
    rewrite O2.
    destruct Hfail as [F1 | [F1 F2]].
    + rewrite F1. cbn [snd]. logged_last.
    + rewrite F1, F2. cbn [snd]. logged_last.
  - intros Hconn F1 F2.
    destruct (connected_client _ Hconn) as [c [Hc Hl]].
    rewrite (disconnect_run s c Hc Hl). cbv zeta. rewrite O1, F1.
    match goal with
    | |- context [outcome ?t] =>
        assert (O2 : outcome t = fails second)
          by (unfold outcome, pending, second; cbn;
              now destruct (script (world s)) as [|a [|b l]])
    end.
    rewrite O2, F2. cbn [snd]. split; [reflexivity|].
    now apply disconnect_idle.
Qed.

(** C5 on the cases the claim names: never connected, already
    disconnected, twice in a row on a live link, and a refused request. *)
Example disconnect_cases :
  disconnect fresh = (Ok tt, fresh) /\
  run disconnect live = Ok tt /\
  disconnect (exec disconnect live) = (Ok tt, exec disconnect live) /\
  run disconnect unsubscribe_refused = Ok tt /\
  logged (world (exec disconnect unsubscribe_refused)) =
    [mkLog ERROR "Error during disconnect: "
       (ArgExn (BleakError "stop_notify failed"))].
Proof. repeat split. Qed.

(** C6 at the failing input: on a live session whose unsubscribe request is
    refused, [disconnect] logs the error and returns, the only library call
    it has issued is [stop_notify]: no close request is made and the link is
    still up. *)
Theorem disconnect_skips_close_after_failed_unsubscribe :
  run disconnect unsubscribe_refused = Ok tt /\
  calls (world (exec disconnect unsubscribe_refused)) =
    [CallStopNotify PMD_DATA] /\
  ~ In CallDisconnect (calls (world (exec disconnect unsubscribe_refused))) /\
  connected (self (exec disconnect unsubscribe_refused)) = true /\
  logged (world (exec disconnect unsubscribe_refused)) =
    [mkLog ERROR "Error during disconnect: "
       (ArgExn (BleakError "stop_notify failed"))].
Proof.
  repeat split. cbn. intros [H|[]]. discriminate H.
Qed.

(** The same on every live session: a refused unsubscribe ends
    [disconnect] after the one [stop_notify] call. *)
Lemma disconnect_failed_unsubscribe (s : Sys) (e : exn) :
  connected (self s) = true -> outcome s = Some e ->
  calls (world (exec disconnect s)) =
    calls (world s) ++ [CallStopNotify PMD_DATA] /\
  connected (self (exec disconnect s)) = true.
Proof.
  intros Hconn Hfail.
  destruct (connected_client _ Hconn) as [c [Hc Hl]].
  unfold exec. rewrite (disconnect_run s c Hc Hl). cbv zeta.
  rewrite Hfail. cbn [snd]. split; [reflexivity|].
  unfold connected, logs, after_call, arrive; cbn. now rewrite Hc.
Qed.

Lemma connect_unfold (s : Sys) :
  connect s =
  match device (self s) with
  | Some _ => connect_attempt s
  | None =>
      match scan_for_device s with
      | (Ok true, s1) => connect_attempt s1
      | (Ok false, s1) => (Ok false, s1)
      | (Raise e, s1) => (Raise e, s1)
      end
  end.
Proof.
  unfold connect, bind, get_self, ret, connect_attempt.
  destruct (device (self s)) as [d|].
  - reflexivity.
  - destruct (scan_for_device s) as [[[|]|e] s1]; reflexivity.
Qed.

Lemma connect_attempt_run (s : Sys) :
  let d := device (self s) in
  let s0 := on_self (set_client (Some (new_client d))) s in
  let s1 := after_call (CallConnect d) s0 in
  let s2 := logs INFO "Connected to Polar H10" NoArg
              (on_self (set_client (Some (linked_client d))) s1) in
  let s3 := after_call (CallStartNotify PMD_DATA) s2 in
  connect_attempt s =
  match outcome s0 with
  | Some e =>
      (Ok false, logs ERROR "Error connecting to device: " (ArgExn e) s1)
  | None =>
      match outcome s2 with
      | Some e =>
          (Ok false, logs ERROR "Error connecting to device: " (ArgExn e) s3)
      | None =>
          (Ok true,
           logs INFO "Enabled PMD data notifications" NoArg
             (on_self (set_client (Some (subscribed_client d))) s3))
      end
  end.
Proof.
  intros d s0 s1 s2 s3.
  unfold connect_attempt, try_except, bind, get_self, assign.
  fold d. fold (new_client d).
  change (mkSys (set_client (Some (new_client d)) (self s)) (world s)) with s0.
  rewrite (client_connect_run s0 (new_client d) eq_refl). cbv zeta.
  change (target (new_client d)) with d. fold s1.
  destruct (outcome s0) as [e|]; [reflexivity|].
  change (log INFO "Connected to Polar H10" NoArg
            (on_self (set_client (Some (mkClient d true
               (notifying (new_client d))))) s1))
    with (Ok tt, s2).
  cbv iota beta.
  rewrite (start_notify_run PMD_DATA s2 (linked_client d) eq_refl).
  cbv zeta. fold s3.
  destruct (outcome s2) as [e|]; reflexivity.
Qed.

(** What [connect_attempt] leaves behind, whichever way it ends. *)
Lemma connect_attempt_outcome (s : Sys) :
  exists b issued,
    connect_attempt s = (Ok b, exec connect_attempt s) /\
    calls (world (exec connect_attempt s)) = calls (world s) ++ issued /\
    ~ In CallDisconnect issued /\
    ~ In (CallStopNotify PMD_DATA) issued /\
    ~ In CallDiscover issued /\
    (b = false -> In (CallStartNotify PMD_DATA) issued ->
     connected (self (exec connect_attempt s)) = true) /\
    (b = false -> ~ In (CallStartNotify PMD_DATA) issued ->
     connected (self (exec connect_attempt s)) = false).
Proof.
  unfold exec. rewrite connect_attempt_run. cbv zeta.
  destruct (outcome _) as [e1|]; [|destruct (outcome _) as [e2|]];
    cbn [snd].
  - exists false, [CallConnect (device (self s))].
    repeat split; try (cbn; intros [H|[]]; discriminate H).
    intros _ [H|[]]. discriminate H.
  - exists false, [CallConnect (device (self s)); CallStartNotify PMD_DATA].
    repeat split;
      try (cbn; intros [H|[H|[]]]; discriminate H).
    + unfold logs, after_call, arrive, on_self; cbn.
      now rewrite <- app_assoc.
    + intros _ H. exfalso. apply H. right. now left.
  - exists true, [CallConnect (device (self s)); CallStartNotify PMD_DATA].
    repeat split;
      try (cbn; intros [H|[H|[]]]; discriminate H);
      try discriminate.
    unfold logs, after_call, arrive, on_self; cbn.
    now rewrite <- app_assoc.
Qed.

Lemma scan_for_device_calls (s : Sys) :
  calls (world (exec scan_for_device s)) = calls (world s) ++ [CallDiscover].
Proof.
  unfold exec. rewrite scan_for_device_run. cbv zeta.
  destruct (fails (pending s)); [reflexivity|].
  rewrite scan_loop_run. destruct (find _ _); reflexivity.
Qed.

Lemma scan_for_device_raises (s : Sys) (e : exn) :
  run scan_for_device s = Raise e -> fails (pending s) = Some e.
Proof.
  unfold run. rewrite scan_for_device_run. cbv zeta.
  destruct (fails (pending s)) as [e'|].
  - cbn. now intros [= ->].
  - rewrite scan_loop_run. destruct (find _ _); discriminate.
Qed.

Lemma scan_for_device_client (s : Sys) :
  client (self (exec scan_for_device s)) = client (self s).
Proof.
  unfold exec. rewrite scan_for_device_run. cbv zeta.
  destruct (fails (pending s)); [reflexivity|].
  rewrite scan_loop_run. destruct (find _ _); reflexivity.
Qed.

(** C4, as stated, fails: when the transport connects and the subscription
    is then refused, [connect] returns [False] while the GATT link is still
    connected; it has issued no close request. *)
Lemma connect_teardown_counterexample :
  ~ (forall s : Sys,
       connected (self s) = false ->
       run connect s = Ok false ->
       connected (self (exec connect s)) = false).
Proof.
  intros H.
  specialize (H subscription_refused eq_refl eq_refl).
  vm_compute in H. discriminate.
Qed.

Lemma nth_tl {A} (n : nat) (l : list A) (d : A) :
  nth n (tl l) d = nth (S n) l d.
Proof. destruct l; [now destruct n | reflexivity]. Qed.

(** A refused request in [connect_attempt]: which one, and what is left. *)
Lemma connect_attempt_refused (t : Sys) (d : BLEDevice) :
  device (self t) = Some d ->
  device (self (exec connect_attempt t)) = Some d /\
  (forall e,
     fails (nth 0 (script (world t)) quiet) = Some e ->
     run connect_attempt t = Ok false /\
     client (self (exec connect_attempt t)) = Some (new_client (Some d)) /\
     calls (world (exec connect_attempt t)) =
       calls (world t) ++ [CallConnect (Some d)] /\
     In (mkLog ERROR "Error connecting to device: " (ArgExn e))
        (logged (world (exec connect_attempt t)))) /\
  (forall e,
     fails (nth 0 (script (world t)) quiet) = None ->
     fails (nth 1 (script (world t)) quiet) = Some e ->
     run connect_attempt t = Ok false /\
     client (self (exec connect_attempt t)) = Some (linked_client (Some d)) /\
     calls (world (exec connect_attempt t)) =
       calls (world t) ++ [CallConnect (Some d); CallStartNotify PMD_DATA] /\
     In (mkLog ERROR "Error connecting to device: " (ArgExn e))
        (logged (world (exec connect_attempt t)))).
Proof.
  intros Hdev. unfold run, exec. rewrite connect_attempt_run. cbv zeta.
  rewrite Hdev. outcomes. split; [|split].
  - destruct (fails (nth 0 _ _)); [|destruct (fails (nth 1 _ _))];
      cbn [snd]; fields; exact Hdev.
  - intros e F0. rewrite F0. cbn [fst snd]. fields.
    split; [reflexivity|]. split; [reflexivity|]. split; [reflexivity|].
    rewrite logged_logs. apply in_or_app. right. now left.
  - intros e F0 F1. rewrite F0, F1. cbn [fst snd]. fields.
    split; [reflexivity|]. split; [reflexivity|].
    split; [now rewrite <- app_assoc|].
    rewrite logged_logs. apply in_or_app. right. now left.
Qed.

(** C4, amended: a failing transport connection or a failing subscription
    makes [connect] log the error and return [False] (only a failing scan
    can raise); [connect] issues no unsubscribe and no close request of its
    own: after a refused transport connection the new client is not
    connected, after a refused subscription the link stays connected,
    unsubscribed, and is the caller's to close. *)
Theorem connect_failure_leaves_link_to_caller (s : Sys) :
  let s' := exec connect s in
  let k := first_request s in
  (forall d, device (self s') = Some d ->
     (forall e,
        fails (nth k (script (world s)) quiet) = Some e ->
        run connect s = Ok false /\
        client (self s') = Some (new_client (Some d)) /\
        connected (self s') = false /\
        calls (world s') =
          calls (world s) ++ scanned s ++ [CallConnect (Some d)] /\
        In (mkLog ERROR "Error connecting to device: " (ArgExn e))
           (logged (world s'))) /\
     (forall e,
        fails (nth k (script (world s)) quiet) = None ->
        fails (nth (S k) (script (world s)) quiet) = Some e ->
        run connect s = Ok false /\
        client (self s') = Some (linked_client (Some d)) /\
        connected (self s') = true /\
        calls (world s') =
          calls (world s) ++ scanned s ++
          [CallConnect (Some d); CallStartNotify PMD_DATA] /\
        In (mkLog ERROR "Error connecting to device: " (ArgExn e))
           (logged (world s')))) /\
  (forall e, run connect s = Raise e ->
     device (self s) = None /\ fails (pending s) = Some e /\
     calls (world s') = calls (world s) ++ [CallDiscover]) /\
  (run connect s = Ok false ->
   exists issued,
     calls (world s') = calls (world s) ++ issued /\
     ~ In CallDisconnect issued /\
     ~ In (CallStopNotify PMD_DATA) issued /\
     (In (CallStartNotify PMD_DATA) issued -> connected (self s') = true) /\
     (connected (self s) = false ->
      ~ In (CallStartNotify PMD_DATA) issued ->
      connected (self s') = false)).
Proof.
  intros s' k. subst s' k. split.
  { unfold run, exec, first_request, scanned. rewrite connect_unfold.
    destruct (device (self s)) as [d0|] eqn:Hdev.
    - intros d Hd.
      destruct (connect_attempt_refused s d0 Hdev) as [Hkeep [Ht Hs]].
      unfold run, exec in Hkeep, Ht, Hs.
      rewrite Hkeep in Hd. injection Hd as <-. cbn [List.length app].
      split.
      + intros e F. destruct (Ht e F) as [R [C [L G]]].
        rewrite R, C, L. unfold connected. rewrite C. now repeat split.
      + intros e F0 F1. destruct (Hs e F0 F1) as [R [C [L G]]].
        rewrite R, C, L. unfold connected. rewrite C. now repeat split.
    - cbn [List.length]. rewrite scan_for_device_run. cbv zeta.
      assert (P : pending s = nth 0 (script (world s)) quiet)
        by (unfold pending; now destruct (script (world s))).
      destruct (fails (pending s)) as [e0|].
      { cbn [snd]. fields. intros d Hd. congruence. }
      rewrite scan_loop_run.
      destruct (find is_polar (found (pending s))) as [d1|].
      2: { cbn [snd]. fields. intros d Hd. congruence. }
      set (t := logs INFO "Found Polar H10: " (ArgName (name d1))
                  (on_self (set_device (Some d1))
                     (after_call CallDiscover
                        (logs INFO "Scanning for Polar H10..." NoArg s)))).
      assert (Hdevt : device (self t) = Some d1) by reflexivity.
      assert (Hscr : script (world t) = tl (script (world s)))
        by reflexivity.
      assert (Hcalls : calls (world t) = calls (world s) ++ [CallDiscover])
        by reflexivity.
      destruct (connect_attempt_refused t d1 Hdevt) as [Hkeep [Ht Hs]].
      unfold run, exec in Hkeep, Ht, Hs.
      rewrite Hscr in Ht, Hs. rewrite (nth_tl 0) in Ht, Hs.
      rewrite (nth_tl 1) in Hs.
      intros d Hd. rewrite Hkeep in Hd. injection Hd as <-.
      split.
      + intros e F. destruct (Ht e F) as [R [C [L G]]].
        rewrite R, C, L, Hcalls. unfold connected. rewrite C.
        repeat split; [now rewrite <- app_assoc | exact G].
      + intros e F0 F1. destruct (Hs e F0 F1) as [R [C [L G]]].
        rewrite R, C, L, Hcalls. unfold connected. rewrite C.
        repeat split; [now rewrite <- app_assoc | exact G]. }
  unfold run, exec. rewrite connect_unfold.
  destruct (device (self s)) as [d|] eqn:Hdev.
  - destruct (connect_attempt_outcome s)
      as [b [issued [E [Hc [Hd [Hs [_ [Hup Hdown]]]]]]]].
    rewrite E. cbn [fst snd]. split; [discriminate|].
    intros [= ->]. exists issued. repeat split; auto.
  - pose proof (scan_for_device_calls s) as Hscan.
    pose proof (scan_for_device_raises s) as Hraise.
    pose proof (scan_for_device_client s) as Hclient.
    unfold exec, run in Hscan, Hraise, Hclient.
    destruct (scan_for_device s) as [[[|]|e0] s1] eqn:Escan;
      cbn [fst snd] in *.
    + destruct (connect_attempt_outcome s1)
        as [b [issued [E [Hc [Hd [Hs [Hdisc [Hup Hdown]]]]]]]].
      rewrite E. cbn [fst snd]. split; [discriminate|].
      intros [= ->]. exists (CallDiscover :: issued).
      split; [|split; [|split; [|split]]].
      * rewrite Hc, Hscan. now rewrite <- app_assoc.
      * intros [H|H]; [discriminate H | now apply Hd].
      * intros [H|H]; [discriminate H | now apply Hs].
      * intros [H|H]; [discriminate H | now apply Hup].
      * intros _ Hno. apply Hdown; [reflexivity|].
        intros H. apply Hno. now right.
    + split; [discriminate|]. intros _. exists [CallDiscover].
      split; [exact Hscan|].
      split; [intros [H|[]]; discriminate H|].
      split; [intros [H|[]]; discriminate H|].
      split; [intros [H|[]]; discriminate H|].
      intros Hconn _. unfold connected. rewrite Hclient. exact Hconn.
    + split.
      * intros e [= ->]. split; [reflexivity|]. split; [|exact Hscan].
        now apply Hraise.
      * discriminate.
Qed.

Lemma connect_failure_leaves_link_to_caller_witness :
  device (self (exec connect subscription_refused)) = Some h10 /\
  run connect subscription_refused = Ok false /\
  client (self (exec connect subscription_refused)) =
    Some (linked_client (Some h10)) /\
  connected (self (exec connect subscription_refused)) = true /\
  calls (world (exec connect subscription_refused)) =
    calls (world subscription_refused) ++ scanned subscription_refused ++
    [CallConnect (Some h10); CallStartNotify PMD_DATA] /\
  In (mkLog ERROR "Error connecting to device: "
        (ArgExn (BleakError "start_notify failed")))
     (logged (world (exec connect subscription_refused))).
Proof.
  split; [reflexivity|].
  pose proof (connect_failure_leaves_link_to_caller subscription_refused)
    as H.
  cbv zeta in H. destruct H as [H _].
  destruct (H h10 eq_refl) as [_ Hs].
  apply (Hs (BleakError "start_notify failed")); reflexivity.
Defined.

(** [connect] on the three ways it can end once the device is known, and
    the caller's [disconnect] closing the link that a refused subscription
    left open. *)
Example connect_cases :
  run connect (with_script [failing "connect failed"] discovered) = Ok false /\
  connected (self (exec connect
    (with_script [failing "connect failed"] discovered))) = false /\
  run connect subscription_refused = Ok false /\
  calls (world (exec connect subscription_refused)) =
    [CallConnect (Some h10); CallStartNotify PMD_DATA] /\
  connected (self (exec connect subscription_refused)) = true /\
  connected (self (exec disconnect (exec connect subscription_refused))) =
    false /\
  run connect discovered = Ok true /\
  client (self (exec connect discovered)) =
    Some (subscribed_client (Some h10)) /\
  run connect (with_script [mkStep [] None [watch]] fresh) = Ok false /\
  calls (world (exec connect (with_script [mkStep [] None [watch]] fresh))) =
    [CallDiscover].
Proof. repeat split. Qed.

Lemma disconnect_never_raises_witness :
  connected (self live) = true /\
  connected (self (exec disconnect live)) = false /\
  disconnect (exec disconnect live) = (Ok tt, exec disconnect live).
Proof.
  split; [reflexivity|].
  apply (disconnect_never_raises live); reflexivity.
Defined.

(** * Further properties of the code *)

(** ** [connect] beyond its failures *)

(** With the device already known and both requests accepted, [connect]
    makes a client for that device, connects it, subscribes the handler to
    [PMD_DATA], in this order, and returns [True]; it neither clears the
    buffer nor touches the recording flag. *)
Theorem connect_subscribes (s : Sys) (d : BLEDevice) :
  device (self s) = Some d ->
  fails (nth 0 (script (world s)) quiet) = None ->
  fails (nth 1 (script (world s)) quiet) = None ->
  let s' := exec connect s in
  run connect s = Ok true /\
  client (self s') = Some (subscribed_client (Some d)) /\
  calls (world s') =
    calls (world s) ++ [CallConnect (Some d); CallStartNotify PMD_DATA] /\
  is_recording s' = is_recording s /\
  exists cs, heard (world s') = heard (world s) ++ cs /\
             buffer s' = buffer s ++ List.concat cs.
Proof.
  intros Hdev F0 F1 s'. subst s'. unfold run, exec.
  rewrite connect_unfold, Hdev, connect_attempt_run. cbv zeta.
  rewrite Hdev. outcomes. rewrite F0. outcomes. rewrite F1.
  cbn [fst snd]. split; [reflexivity|]. fields.
  split; [reflexivity|]. split; [now rewrite <- app_assoc|].
  split; [reflexivity|].
  eexists. split.
  - rewrite <- app_assoc. reflexivity.
  - rewrite concat_app, <- app_assoc. reflexivity.
Qed.

Lemma connect_subscribes_witness :
  run connect discovered = Ok true /\
  client (self (exec connect discovered)) =
    Some (subscribed_client (Some h10)).
Proof.
  pose proof (connect_subscribes discovered h10 eq_refl eq_refl eq_refl) as H.
  cbv zeta in H. destruct H as [H1 [H2 _]]. now split.
Defined.

(** With no device known, a scan that comes back without any "Polar H10"
    name makes [connect] return [False] after the scan alone: no client is
    made and no GATT connection is attempted. *)
Theorem connect_without_device_stops_after_scan (s : Sys) :
  device (self s) = None ->
  fails (pending s) = None ->
  (forall x, In x (found (pending s)) -> ~ names_polar x) ->
  let s' := exec connect s in
  run connect s = Ok false /\
  calls (world s') = calls (world s) ++ [CallDiscover] /\
  client (self s') = client (self s) /\
  device (self s') = None.
Proof.
  intros Hdev Hok Hnone s'. subst s'. unfold run, exec.
  rewrite connect_unfold, Hdev, scan_for_device_run. cbv zeta.
  rewrite Hok, scan_loop_run, find_nowhere.
  - cbn [fst snd]. fields. repeat split. exact Hdev.
  - intros x Hx. apply not_polar. now apply Hnone.
Qed.

Lemma connect_without_device_stops_after_scan_witness :
  run connect (with_script [mkStep [] None [watch; lowercase]] fresh) =
    Ok false /\
  calls (world (exec connect
    (with_script [mkStep [] None [watch; lowercase]] fresh))) =
    [CallDiscover].
Proof.
  pose proof (connect_without_device_stops_after_scan
                (with_script [mkStep [] None [watch; lowercase]] fresh)
                eq_refl eq_refl) as H.
  cbv zeta in H. destruct H as [H1 [H2 _]].
  - intros x Hx Hp. apply is_polar_spec in Hp.
    destruct Hx as [<-|[<-|[]]]; discriminate Hp.
  - now split.
Defined.

(** With no device known, a scan that finds a "Polar H10" is followed by
    the connection to the first such device; the device is kept in the
    object. *)
Theorem connect_discovers_then_subscribes
  (s : Sys) (pre : list BLEDevice) (d : BLEDevice) (post : list BLEDevice) :
  device (self s) = None ->
  fails (nth 0 (script (world s)) quiet) = None ->
  found (nth 0 (script (world s)) quiet) = pre ++ d :: post ->
  (forall x, In x pre -> ~ names_polar x) ->
  names_polar d ->
  fails (nth 1 (script (world s)) quiet) = None ->
  fails (nth 2 (script (world s)) quiet) = None ->
  let s' := exec connect s in
  run connect s = Ok true /\
  device (self s') = Some d /\
  client (self s') = Some (subscribed_client (Some d)) /\
  calls (world s') =
    calls (world s) ++
    [CallDiscover; CallConnect (Some d); CallStartNotify PMD_DATA].
Proof.
  intros Hdev F0 Hfound Hpre Hd F1 F2 s'. subst s'. unfold run, exec.
  assert (P : pending s = nth 0 (script (world s)) quiet)
    by (unfold pending; now destruct (script (world s))).
  rewrite connect_unfold, Hdev, scan_for_device_run. cbv zeta.
  rewrite P, F0, Hfound, scan_loop_run, find_first;
    [| intros x Hx; apply not_polar; now apply Hpre
     | now apply is_polar_spec ].
  rewrite connect_attempt_run. cbv zeta.
  outcomes. rewrite F1. outcomes. rewrite F2.
  cbn [fst snd]. split; [reflexivity|]. fields.
  split; [reflexivity|]. split; [reflexivity|].
  now rewrite <- !app_assoc.
Qed.

Lemma connect_discovers_then_subscribes_witness :
  run connect (with_script [mkStep [] None [watch; h10; second_h10]] fresh) =
    Ok true /\
  device (self (exec connect
    (with_script [mkStep [] None [watch; h10; second_h10]] fresh))) =
    Some h10.
Proof.
  pose proof (connect_discovers_then_subscribes
                (with_script [mkStep [] None [watch; h10; second_h10]] fresh)
                [watch] h10 [second_h10] eq_refl eq_refl eq_refl) as H.
  cbv zeta in H. destruct H as [H1 [H2 _]]; try reflexivity.
  - intros x Hx Hp. apply is_polar_spec in Hp.
    destruct Hx as [<-|[]]; discriminate Hp.
  - apply is_polar_spec. reflexivity.
  - now split.
Defined.

(** Once a device is known [connect] never scans again and always builds a
    new client for that device: the client the object held before, connected
    or not, plays no part in the run and gets no close request; it is
    replaced by the new one, which ends not connected, connected, or
    connected and subscribed according to the request that was refused. *)
Theorem connect_reuses_device_not_client
  (s : Sys) (d : BLEDevice) (old : option BleakClient) :
  device (self s) = Some d ->
  let s' := exec connect s in
  connect (on_self (set_client old) s) = connect s /\
  device (self s') = Some d /\
  client (self s') =
    Some (match fails (nth 0 (script (world s)) quiet),
                fails (nth 1 (script (world s)) quiet) with
          | Some _, _ => new_client (Some d)
          | None, Some _ => linked_client (Some d)
          | None, None => subscribed_client (Some d)
          end) /\
  exists rest,
    calls (world s') = calls (world s) ++ CallConnect (Some d) :: rest /\
    ~ In CallDiscover rest /\ ~ In CallDisconnect rest /\
    ~ In (CallStopNotify PMD_DATA) rest.
Proof.
  intros Hdev s'. subst s'. split.
  { rewrite !connect_unfold.
    change (device (self (on_self (set_client old) s)))
      with (device (self s)).
    rewrite Hdev. reflexivity. }
  unfold exec.
  rewrite connect_unfold, Hdev, connect_attempt_run. cbv zeta. rewrite Hdev.
  outcomes.
  destruct (fails (nth 0 _ _)) as [e1|];
    [|destruct (fails (nth 1 _ _)) as [e2|]]; cbn [snd].
  - fields. split; [exact Hdev|]. split; [reflexivity|].
    exists []. repeat split; auto.
  - fields. split; [exact Hdev|]. split; [reflexivity|].
    exists [CallStartNotify PMD_DATA]. repeat split.
    + fields. now rewrite <- app_assoc.
    + intros [H|[]]. discriminate H.
    + intros [H|[]]. discriminate H.
    + intros [H|[]]. discriminate H.
  - fields. split; [exact Hdev|]. split; [reflexivity|].
    exists [CallStartNotify PMD_DATA]. repeat split.
    + fields. now rewrite <- app_assoc.
    + intros [H|[]]. discriminate H.
    + intros [H|[]]. discriminate H.
    + intros [H|[]]. discriminate H.
Qed.

Lemma connect_reuses_device_not_client_witness :
  connect (on_self (set_client None) live) = connect live /\
  device (self (exec connect live)) = Some h10 /\
  client (self (exec connect live)) = Some (subscribed_client (Some h10)) /\
  exists rest,
    calls (world (exec connect live)) =
      calls (world live) ++ CallConnect (Some h10) :: rest /\
    ~ In CallDiscover rest /\ ~ In CallDisconnect rest /\
    ~ In (CallStopNotify PMD_DATA) rest.
Proof.
  pose proof (connect_reuses_device_not_client live h10 None eq_refl) as H.
  cbv zeta in H. exact H.
Defined.

(** ** [_send_command] on any arguments *)

Lemma pack_B_outside (z : Z) : ~ 0 <= z <= 255 -> pack_B z = None.
Proof.
  intros H. unfold pack_B.
  destruct ((0 <=? z) && (z <=? 255)) eqn:R; [|reflexivity].
  apply andb_true_iff in R. destruct R as [R0 R1].
  apply Z.leb_le in R0. apply Z.leb_le in R1. lia.
Qed.

(** A command or measurement type that does not fit one unsigned byte makes
    [_send_command] raise [struct.error] before anything is written; with
    no client object it raises [AttributeError], again writing nothing. *)
Theorem send_command_rejects (s : Sys) (command mt : Z) :
  (~ (0 <= command <= 255 /\ 0 <= mt <= 255) ->
   _send_command command mt s = (Raise StructError, s)) /\
  (0 <= command <= 255 -> 0 <= mt <= 255 -> client (self s) = None ->
   _send_command command mt s = (Raise AttributeError, s)).
Proof.
  split.
  - intros H. apply send_command_unpackable.
    destruct (pack_B command) as [x|] eqn:Hx; [|now left].
    destruct (pack_B mt) as [y|] eqn:Hy; [|now right].
    exfalso. apply H.
    pose proof (pack_B_value _ _ Hx) as Vx.
    pose proof (pack_B_value _ _ Hy) as Vy.
    unfold pack_B in Hx, Hy.
    destruct ((0 <=? command) && (command <=? 255)) eqn:Rc; [|discriminate].
    destruct ((0 <=? mt) && (mt <=? 255)) eqn:Rm; [|discriminate].
    apply andb_true_iff in Rc. apply andb_true_iff in Rm.
    destruct Rc as [C0 C1], Rm as [M0 M1].
    apply Z.leb_le in C0, C1, M0, M1. lia.
  - intros Rc Rm Hc.
    destruct (pack_B_range _ Rc) as [x Hx], (pack_B_range _ Rm) as [y Hy].
    unfold _send_command, struct_pack_BB, write_gatt_char, with_client,
      bind, get_self, ret, raise.
    now rewrite Hx, Hy, Hc.
Qed.

Lemma send_command_rejects_witness :
  _send_command START_MEASUREMENT 256 live = (Raise StructError, live) /\
  _send_command START_MEASUREMENT ECG_MEASUREMENT fresh =
    (Raise AttributeError, fresh).
Proof.
  split.
  - apply (send_command_rejects live START_MEASUREMENT 256).
    unfold START_MEASUREMENT. lia.
  - apply (send_command_rejects fresh START_MEASUREMENT ECG_MEASUREMENT);
      [unfold START_MEASUREMENT; lia | unfold ECG_MEASUREMENT; lia
      | reflexivity].
Defined.

(** For any two values that fit a byte, [_send_command] issues one write to
    [PMD_CONTROL] whose two bytes read back as the command and the
    measurement type, and its outcome is that of the write: an exception of
    the write reaches the caller unchanged. *)
Theorem send_command_frame (s : Sys) (c : BleakClient) (command mt : Z) :
  0 <= command <= 255 -> 0 <= mt <= 255 ->
  client (self s) = Some c ->
  exists x y : byte,
    byte_value x = command /\ byte_value y = mt /\
    calls (world (exec (_send_command command mt) s)) =
      calls (world s) ++ [CallWrite PMD_CONTROL [x; y]] /\
    run (_send_command command mt) s =
      match fails (nth 0 (script (world s)) quiet) with
      | Some e => Raise e
      | None => Ok tt
      end.
Proof.
  intros Rc Rm Hc.
  destruct (pack_B_range _ Rc) as [x Hx], (pack_B_range _ Rm) as [y Hy].
  exists x, y. split; [now apply pack_B_value|].
  split; [now apply pack_B_value|].
  unfold exec, run. rewrite (send_command_run _ _ _ _ _ _ Hc Hx Hy).
  cbn [fst snd]. split; [reflexivity|]. now rewrite outcome_nth0.
Qed.

Lemma send_command_frame_witness :
  exists x y : byte,
    byte_value x = 200 /\ byte_value y = 17 /\
    calls (world (exec (_send_command 200 17) live)) =
      calls (world live) ++ [CallWrite PMD_CONTROL [x; y]] /\
    run (_send_command 200 17) live =
      match fails (nth 0 (script (world live)) quiet) with
      | Some e => Raise e
      | None => Ok tt
      end.
Proof.
  apply (send_command_frame live live_client 200 17); [lia | lia | reflexivity].
Defined.

(** ** The sink and the buffer *)

Lemma start_recording_gate (mt : Z) (s : Sys) :
  connected (self s) = false ->
  start_recording mt s =
    (Raise (ConnectionError "Not connected to Polar H10"), s).
Proof.
  intros H. unfold start_recording, bind, get_self, raise.
  now rewrite H.
Qed.


(** [set_notification_callback] replaces whatever was registered.  The
    handler tests the truth value of the registered object: a truthy one is
    called with every chunk the transport delivers, once and in arrival
    order; a falsy one, or [None], is never called.  Either way, and also
    when the sink raises, every chunk is in the buffer. *)
Theorem sink_sees_every_chunk
  (s : Sys) (cb : option Callable) (chunks : list bytes) :
  let s1 := exec (set_notification_callback cb) s in
  let s' := deliver chunks s1 in
  run (set_notification_callback cb) s = Ok tt /\
  _notification_callback (self s1) = cb /\
  sunk (world s') =
    sunk (world s) ++ (if truth_value cb then chunks else []) /\
  buffer s' = buffer s ++ List.concat chunks /\
  heard (world s') = heard (world s) ++ chunks.
Proof.
  intros s1 s'. subst s' s1. rewrite deliver_arrive.
  repeat split.
Qed.

(** Draining in the middle of a stream loses and repeats nothing: what
    [get_data] returns, followed by what the next [get_data] returns, is
    the buffer as it was followed by all the chunks in arrival order. *)
Theorem get_data_splits_stream (s : Sys) (a b : list bytes) :
  let s1 := deliver a s in
  let s2 := deliver b (exec get_data s1) in
  exists x y,
    run get_data s1 = Ok x /\ run get_data s2 = Ok y /\
    x = buffer s ++ List.concat a /\ y = List.concat b /\
    x ++ y = buffer s ++ List.concat (a ++ b) /\
    buffer (exec get_data s2) = [].
Proof.
  intros s1 s2. subst s2 s1.
  exists (buffer s ++ List.concat a), (List.concat b).
  unfold run, exec. rewrite !get_data_run, !deliver_arrive. cbn [fst snd].
  repeat split. now rewrite concat_app, app_assoc.
Qed.

(** ** [disconnect] when both requests go through *)

(** On a connected session whose unsubscribe and close requests succeed,
    [disconnect] issues [stop_notify(PMD_DATA)] and then the close; the
    client is then not connected, the device stays known, the recording flag
    is not reset, and [start_recording] and [stop_recording] are refused
    with [ConnectionError]. *)
Theorem disconnect_closes_link (s : Sys) :
  connected (self s) = true ->
  fails (nth 0 (script (world s)) quiet) = None ->
  fails (nth 1 (script (world s)) quiet) = None ->
  let s' := exec disconnect s in
  calls (world s') =
    calls (world s) ++ [CallStopNotify PMD_DATA; CallDisconnect] /\
  connected (self s') = false /\
  device (self s') = device (self s) /\
  is_recording s' = is_recording s /\
  (forall mt,
     run (start_recording mt) s' =
       Raise (ConnectionError "Not connected to Polar H10") /\
     run (stop_recording mt) s' =
       Raise (ConnectionError "Not connected to Polar H10")).
Proof.
  intros Hconn F0 F1 s'. subst s'. unfold exec.
  destruct (connected_client _ Hconn) as [c [Hc Hl]].
  rewrite (disconnect_run s c Hc Hl). cbv zeta.
  rewrite outcome_nth0, F0. outcomes. rewrite F1.
  cbn [snd]. split.
  - fields. now rewrite <- app_assoc.
  - split; [reflexivity|]. split; [reflexivity|]. split; [reflexivity|].
    intros mt. unfold run. split.
    + now rewrite start_recording_gate by reflexivity.
    + now rewrite stop_recording_not_connected by reflexivity.
Qed.

Lemma disconnect_closes_link_witness :
  calls (world (exec disconnect recording_live)) =
    [CallStopNotify PMD_DATA; CallDisconnect] /\
  connected (self (exec disconnect recording_live)) = false /\
  is_recording (exec disconnect recording_live) = true.
Proof.
  pose proof (disconnect_closes_link recording_live eq_refl eq_refl eq_refl)
    as H.
  cbv zeta in H. destruct H as [H1 [H2 [_ [H4 _]]]]. now repeat split.
Defined.

(** ** No check of the recording flag *)

(** Neither [start_recording] nor [stop_recording] looks at the recording
    flag: a second start, or a stop without a start, is carried out like
    any other, with the same outcome and the same library calls. *)
Theorem recording_flag_is_never_checked (s : Sys) (mt : Z) (flag : bool) :
  let t := on_self (set_recording flag) s in
  run (start_recording mt) t = run (start_recording mt) s /\
  calls (world (exec (start_recording mt) t)) =
    calls (world (exec (start_recording mt) s)) /\
  run (stop_recording mt) t = run (stop_recording mt) s /\
  calls (world (exec (stop_recording mt) t)) =
    calls (world (exec (stop_recording mt) s)).
Proof.
  intros t. subst t. unfold run, exec.
  destruct (connected (self s)) eqn:Hconn.
  - assert (Hconn' : connected (self (on_self (set_recording flag) s)) = true)
      by exact Hconn.
    destruct (pack_B mt) as [y|] eqn:Hy.
    + rewrite (start_recording_run mt _ y Hconn' Hy),
        (start_recording_run mt s y Hconn Hy),
        (stop_recording_run mt _ y Hconn' Hy),
        (stop_recording_run mt s y Hconn Hy).
      cbv zeta.
      change (outcome (on_self (set_recording flag) s)) with (outcome s).
      change (outcome (on_self (set_buffer [])
                         (on_self (set_recording flag) s)))
        with (outcome (on_self (set_buffer []) s)).
      destruct (outcome s);
        (destruct (outcome (on_self (set_buffer []) s));
         [ repeat split
         | match goal with
           | |- context [match outcome ?u with _ => _ end] =>
               change (outcome u)
                 with (outcome
                         (after_call (CallSleep 100)
                            (after_call
                               (CallWrite PMD_CONTROL [Byte.x01; y])
                               (on_self (set_buffer []) s))));
               destruct (outcome
                           (after_call (CallSleep 100)
                              (after_call
                                 (CallWrite PMD_CONTROL [Byte.x01; y])
                                 (on_self (set_buffer []) s))))
           end; repeat split ]).
    + rewrite (start_recording_unpackable mt _ Hconn' Hy),
        (start_recording_unpackable mt s Hconn Hy),
        (stop_recording_unpackable mt _ Hconn' Hy),
        (stop_recording_unpackable mt s Hconn Hy).
      repeat split.
  - assert (Hconn' : connected (self (on_self (set_recording flag) s)) = false)
      by exact Hconn.
    rewrite (start_recording_gate _ _ Hconn'), (start_recording_gate _ _ Hconn),
      (stop_recording_not_connected _ _ Hconn'),
      (stop_recording_not_connected _ _ Hconn).
    repeat split.
Qed.

(** ** The driver *)

Lemma disconnect_total (s : Sys) : run disconnect s = Ok tt.
Proof.
  unfold run. destruct (connected (self s)) eqn:Hconn.
  - destruct (connected_client _ Hconn) as [c [Hc Hl]].
    rewrite (disconnect_run s c Hc Hl). cbv zeta.
    destruct (outcome s); [reflexivity|].
    destruct (outcome _); reflexivity.
  - now rewrite disconnect_idle.
Qed.


Lemma disconnect_pair (s : Sys) : disconnect s = (Ok tt, exec disconnect s).
Proof.
  pose proof (disconnect_total s) as T. unfold run, exec in *.
  destruct (disconnect s) as [r s']. cbn in *. now subst.
Qed.

Lemma main_run (d : Desk) (h : Host) :
  main d h =
  match run connect (boot h) with
  | Raise e => ending h [SayError e] [] (stage_connect h)
  | Ok false => ending h [SayNoConnection] [] (stage_connect h)
  | Ok true =>
      match run (start_recording ECG_MEASUREMENT) (stage_ready h) with
      | Raise e => ending h [SayStarting; SayError e] [] (stage_started h)
      | Ok _ =>
          match run wait_for_enter (stage_started h) with
          | Raise e => ending h [SayStarting; SayError e] [] (stage_waited h)
          | Ok _ =>
              match run (stop_recording ECG_MEASUREMENT) (stage_waited h) with
              | Raise e =>
                  ending h [SayStarting; SayError e] [] (stage_stopped h)
              | Ok _ =>
                  match disk d with
                  | Some e =>
                      ending h [SayStarting; SayError e] []
                        (exec get_data (stage_stopped h))
                  | None =>
                      ending h
                        [SayStarting;
                         SaySaved (List.length (buffer (stage_stopped h)))
                           (output_name d)]
                        [(output_name d, buffer (stage_stopped h))]
                        (exec get_data (stage_stopped h))
                  end
              end
          end
      end
  end.
Proof.
  unfold main, main_body.
  unfold hbind, construct, hfinally, htry_except, on_polar,
    say, write_file, ending, stage_stopped, stage_waited, stage_started,
    stage_ready, stage_connect, run, exec.
  cbn [polar printed files]. fold (boot h).
  destruct (connect (boot h)) as [[[|]|e] s1];
    cbn [fst snd negb polar printed files].
  2, 3: rewrite disconnect_pair; cbn [polar printed files];
        now rewrite app_nil_r.
  change (set_notification_callback (Some data_callback) s1)
    with (Ok tt, snd (set_notification_callback (Some data_callback) s1)).
  cbn [fst snd polar printed files].
  destruct (start_recording ECG_MEASUREMENT _) as [[[]|e] s3];
    cbn [fst snd polar printed files].
  2: rewrite disconnect_pair; cbn [polar printed files];
     now rewrite app_nil_r, <- app_assoc.
  destruct (wait_for_enter s3) as [[[]|e] s4];
    cbn [fst snd polar printed files].
  2: rewrite disconnect_pair; cbn [polar printed files];
     now rewrite app_nil_r, <- app_assoc.
  destruct (stop_recording ECG_MEASUREMENT s4) as [[[]|e] s5];
    cbn [fst snd polar printed files].
  2: rewrite disconnect_pair; cbn [polar printed files];
     now rewrite app_nil_r, <- app_assoc.
  rewrite get_data_run. cbn [fst snd polar printed files].
  destruct (disk d) as [e|]; cbn [fst snd polar printed files];
    rewrite disconnect_pair; cbn [polar printed files].
  - now rewrite app_nil_r, <- app_assoc.
  - now rewrite <- app_assoc.
Qed.


Lemma connect_attempt_calls_kind (s : Sys) :
  exists issued,
    calls (world (exec connect_attempt s)) = calls (world s) ++ issued /\
    forall c, In c issued ->
      (exists d, c = CallConnect d) \/ c = CallStartNotify PMD_DATA.
Proof.
  unfold exec. rewrite connect_attempt_run. cbv zeta.
  destruct (outcome _) as [e1|]; [|destruct (outcome _) as [e2|]];
    cbn [snd].
  - exists [CallConnect (device (self s))]. split; [reflexivity|].
    intros c [<-|[]]. left. now eexists.
  - exists [CallConnect (device (self s)); CallStartNotify PMD_DATA]. split.
    + fields. now rewrite <- app_assoc.
    + intros c [<-|[<-|[]]]; [left; now eexists | now right].
  - exists [CallConnect (device (self s)); CallStartNotify PMD_DATA]. split.
    + fields. now rewrite <- app_assoc.
    + intros c [<-|[<-|[]]]; [left; now eexists | now right].
Qed.

Lemma connect_calls_kind (s : Sys) :
  exists issued,
    calls (world (exec connect s)) = calls (world s) ++ issued /\
    forall c, In c issued ->
      c = CallDiscover \/ (exists d, c = CallConnect d) \/
      c = CallStartNotify PMD_DATA.
Proof.
  unfold exec. rewrite connect_unfold.
  destruct (device (self s)) as [d|].
  - destruct (connect_attempt_calls_kind s) as [issued [E K]].
    exists issued. split; [exact E|]. intros c Hc. right. now apply K.
  - pose proof (scan_for_device_calls s) as Hscan. unfold exec in Hscan.
    destruct (scan_for_device s) as [[[|]|e0] s1]; cbn [snd] in *.
    + destruct (connect_attempt_calls_kind s1) as [issued [E K]].
      exists (CallDiscover :: issued). split.
      * unfold exec in E. rewrite E, Hscan. now rewrite <- app_assoc.
      * intros c [<-|Hc]; [now left | right; now apply K].
    + exists [CallDiscover]. split; [exact Hscan|].
      intros c [<-|[]]. now left.
    + exists [CallDiscover]. split; [exact Hscan|].
      intros c [<-|[]]. now left.
Qed.

Lemma disconnect_calls_kind (s : Sys) :
  exists issued,
    calls (world (exec disconnect s)) = calls (world s) ++ issued /\
    forall c, In c issued ->
      c = CallStopNotify PMD_DATA \/ c = CallDisconnect.
Proof.
  unfold exec. destruct (connected (self s)) eqn:Hconn.
  - destruct (connected_client _ Hconn) as [c0 [Hc Hl]].
    rewrite (disconnect_run s c0 Hc Hl). cbv zeta.
    destruct (outcome s) as [e|]; [|destruct (outcome _) as [e|]];
      cbn [snd].
    + exists [CallStopNotify PMD_DATA]. split; [reflexivity|].
      intros c [<-|[]]. now left.
    + exists [CallStopNotify PMD_DATA; CallDisconnect]. split.
      * fields. now rewrite <- app_assoc.
      * intros c [<-|[<-|[]]]; [now left | now right].
    + exists [CallStopNotify PMD_DATA; CallDisconnect]. split.
      * fields. now rewrite <- app_assoc.
      * intros c [<-|[<-|[]]]; [now left | now right].
  - rewrite disconnect_idle by exact Hconn. exists []. split.
    + cbn [snd]. now rewrite app_nil_r.
    + intros c [].
Qed.

(** When [connect] does not return [True], [main] prints one line, the
    reason: that the connection could not be made when [connect] returned
    [False], the error when it raised.  It writes no file, and the object
    ends in the state [disconnect] leaves after [connect]: the requests of
    these two are the only ones made, none of them a write to the control
    point. *)
Theorem main_without_connection (d : Desk) (h : Host) :
  run connect (boot h) <> Ok true ->
  let h' := snd (main d h) in
  files h' = files h /\
  printed h' =
    printed h ++
    [match run connect (boot h) with
     | Raise e => SayError e
     | Ok _ => SayNoConnection
     end] /\
  polar h' = exec disconnect (exec connect (boot h)) /\
  exists opening closing,
    calls (world (exec connect (boot h))) =
      calls (world (polar h)) ++ opening /\
    calls (world (polar h')) =
      calls (world (polar h)) ++ opening ++ closing /\
    (forall c, In c opening ->
       c = CallDiscover \/ (exists x, c = CallConnect x) \/
       c = CallStartNotify PMD_DATA) /\
    (forall c, In c closing ->
       c = CallStopNotify PMD_DATA \/ c = CallDisconnect) /\
    forall u p, ~ In (CallWrite u p) (opening ++ closing).
Proof.
  intros Hno h'. subst h'. rewrite main_run.
  destruct (connect_calls_kind (boot h)) as [i1 [E1 K1]].
  fold (stage_connect h) in E1. fold (stage_connect h).
  destruct (disconnect_calls_kind (stage_connect h)) as [i2 [E2 K2]].
  assert (Calls : exists opening closing,
             calls (world (stage_connect h)) =
               calls (world (polar h)) ++ opening /\
             calls (world (exec disconnect (stage_connect h))) =
               calls (world (polar h)) ++ opening ++ closing /\
             (forall c, In c opening ->
                c = CallDiscover \/ (exists x, c = CallConnect x) \/
                c = CallStartNotify PMD_DATA) /\
             (forall c, In c closing ->
                c = CallStopNotify PMD_DATA \/ c = CallDisconnect) /\
             forall u p, ~ In (CallWrite u p) (opening ++ closing)).
  { exists i1, i2. split; [exact E1|]. split; [|split; [exact K1|split]].
    - rewrite E2, E1. cbn. now rewrite <- app_assoc.
    - exact K2.
    - intros u p Hin. apply in_app_or in Hin. destruct Hin as [Hin|Hin].
      + destruct (K1 _ Hin) as [H|[[x H]|H]]; discriminate H.
      + destruct (K2 _ Hin) as [H|H]; discriminate H. }
  destruct (run connect (boot h)) as [[|]|e]; [now elim Hno | |];
    unfold ending; cbn [snd files printed polar];
    (split; [now rewrite app_nil_r|]);
    (split; [reflexivity|]); (split; [reflexivity | exact Calls]).
Qed.

Lemma main_without_connection_witness :
  files (snd (main noon
    (bare (with_script [mkStep [] None [watch]] fresh)))) = [] /\
  printed (snd (main noon
    (bare (with_script [mkStep [] None [watch]] fresh)))) =
    [SayNoConnection] /\
  calls (world (polar (snd (main noon
    (bare (with_script [mkStep [] None [watch]] fresh)))))) =
    [CallDiscover].
Proof.
  pose proof (main_without_connection noon
                (bare (with_script [mkStep [] None [watch]] fresh))) as H.
  cbv zeta in H. destruct H as [H1 [H2 [H3 _]]].
  - vm_compute. discriminate.
  - split; [exact H1|]. split; [exact H2|]. rewrite H3. reflexivity.
Defined.

Lemma wait_for_enter_accumulates (s : Sys) :
  exists cs,
    heard (world (exec wait_for_enter s)) = heard (world s) ++ cs /\
    buffer (exec wait_for_enter s) = buffer s ++ List.concat cs.
Proof.
  exists (during (pending s)).
  unfold exec, wait_for_enter, bind, next_step, raise, ret.
  rewrite deliver_arrive. fold (pending s).
  destruct (fails (pending s)); cbn [snd]; split; reflexivity.
Qed.

Lemma connect_true_connected (s : Sys) :
  run connect s = Ok true -> connected (self (exec connect s)) = true.
Proof.
  unfold run, exec. rewrite connect_unfold.
  assert (A : forall t, fst (connect_attempt t) = Ok true ->
                        connected (self (snd (connect_attempt t))) = true).
  { intros t. rewrite connect_attempt_run. cbv zeta.
    destruct (outcome _); [discriminate|].
    destruct (outcome _); [discriminate|]. reflexivity. }
  destruct (device (self s)); [apply A|].
  destruct (scan_for_device s) as [[[|]|e] s1]; cbn [fst snd];
    [apply A | discriminate | discriminate].
Qed.

(** When [connect], [start_recording], the wait for Enter and
    [stop_recording] all succeed and the file can be opened, [main] writes
    one file, [polar_h10_data_<time>.bin], holding in arrival order every
    chunk delivered from the call of [start_recording] to the return of
    [stop_recording], and reports its length; nothing that was in the
    buffer before the recording is in the file. *)
Theorem main_saves_the_recording (d : Desk) (h : Host) (cs : list bytes) :
  run connect (boot h) = Ok true ->
  run (start_recording ECG_MEASUREMENT) (stage_ready h) = Ok tt ->
  run wait_for_enter (stage_started h) = Ok tt ->
  run (stop_recording ECG_MEASUREMENT) (stage_waited h) = Ok tt ->
  disk d = None ->
  heard (world (stage_stopped h)) = heard (world (stage_ready h)) ++ cs ->
  let h' := snd (main d h) in
  files h' = files h ++ [(output_name d, List.concat cs)] /\
  printed h' =
    printed h ++
    [SayStarting; SaySaved (List.length (List.concat cs)) (output_name d)].
Proof.
  intros Hc Hs Hw Hp Hd Hheard h'. subst h'.
  rewrite main_run, Hc, Hs, Hw, Hp, Hd. unfold ending. cbn [snd files printed polar].
  assert (Hconn : connected (self (stage_ready h)) = true)
    by (apply (connect_true_connected (boot h) Hc)).
  destruct (start_recording_fresh (stage_ready h) ECG_MEASUREMENT Hconn)
    as [c1 [H1 B1]].
  fold (stage_started h) in H1, B1.
  destruct (wait_for_enter_accumulates (stage_started h)) as [c2 [H2 B2]].
  fold (stage_waited h) in H2, B2.
  destruct (stop_recording_accumulates (stage_waited h) ECG_MEASUREMENT)
    as [c3 [H3 B3]].
  fold (stage_stopped h) in H3, B3.
  assert (E : cs = c1 ++ c2 ++ c3).
  { apply (app_inv_head (heard (world (stage_ready h)))).
    rewrite <- Hheard, H3, H2, H1. now rewrite <- !app_assoc. }
  assert (B : buffer (stage_stopped h) = List.concat cs).
  { rewrite B3, B2, B1, E. now rewrite !concat_app, <- !app_assoc. }
  rewrite B. split; [reflexivity|]. split; reflexivity.
Qed.

Lemma main_saves_the_recording_witness :
  files (snd (main noon (bare (with_script session_script stale)))) =
    [("polar_h10_data_20240101_120000.bin",
      [Byte.x01; Byte.x02; Byte.x03; Byte.x04; Byte.x05])].
Proof.
  pose proof (main_saves_the_recording noon
                (bare (with_script session_script stale))
                [[Byte.x01]; [Byte.x02; Byte.x03]; [Byte.x04]; [Byte.x05]])
    as H.
  cbv zeta in H. apply H; reflexivity.
Defined.

(** [main] writes at most one file, and only for a recording that was
    started and stopped without an error: a failure of [connect],
    [start_recording], the wait or [stop_recording] leaves the disk as it
    was. *)
Theorem main_saves_only_clean_recordings (d : Desk) (h : Host) :
  let h' := snd (main d h) in
  (files h' = files h \/
   files h' = files h ++ [(output_name d, buffer (stage_stopped h))]) /\
  (files h' <> files h ->
   run connect (boot h) = Ok true /\
   run (start_recording ECG_MEASUREMENT) (stage_ready h) = Ok tt /\
   run wait_for_enter (stage_started h) = Ok tt /\
   run (stop_recording ECG_MEASUREMENT) (stage_waited h) = Ok tt /\
   disk d = None).
Proof.
  intros h'. subst h'. rewrite main_run.
  destruct (run connect (boot h)) as [[|]|e];
    [ destruct (run (start_recording ECG_MEASUREMENT) (stage_ready h))
        as [[]|e];
      [ destruct (run wait_for_enter (stage_started h)) as [[]|e];
        [ destruct (run (stop_recording ECG_MEASUREMENT) (stage_waited h))
            as [[]|e];
          [ destruct (disk d) as [e|] | ] | ] | ] | | ];
    unfold ending; cbn [snd files]; rewrite ?app_nil_r;
    (split; [auto | intros Hne; try (now elim Hne); auto 6]).
Qed.


Lemma main_saves_only_clean_recordings_witness :
  run connect (boot (bare (with_script session_script fresh))) = Ok true /\
  run (start_recording ECG_MEASUREMENT)
    (stage_ready (bare (with_script session_script fresh))) = Ok tt /\
  run wait_for_enter
    (stage_started (bare (with_script session_script fresh))) = Ok tt /\
  run (stop_recording ECG_MEASUREMENT)
    (stage_waited (bare (with_script session_script fresh))) = Ok tt /\
  disk noon = None.
Proof.
  apply (main_saves_only_clean_recordings noon
           (bare (with_script session_script fresh))).
  intros H. vm_compute in H. discriminate H.
Defined.
